(** * mcp-limitless: the Limitless lifelog client

    A shallow embedding of [src/limitless/types.ts] and of the request
    path of [src/limitless/client.ts] ([LimitlessClient]: constructor,
    [handleRequest], [getLifelogs], [getLifelog], [searchLifelogs] and the
    input schemas of the three registered tools), followed by the
    properties of the search / pagination contract.  The texts of the tool
    results, the four resources and the start-up path of [src/index.ts]
    ([createServer], [main]) are embedded after the client, with the
    clock, the locale and the transport of the host as Section variables.
    The client is embedded twice: on replies of the types that [types.ts]
    declares, and on replies as they arrive, where reading a body of
    another shape throws.

    Conventions.
    - A JavaScript string is a [string]; a character outside ASCII is
      held as its UTF-8 bytes.  [includes] is defined on it and
      proved to be substring containment.  [toLowerCase] and [trim] depend
      on the Unicode tables of the host: they are Section variables, and
      [JsString.toLowerCase] / [JsString.trim] are their restrictions to
      the ASCII range, used where a statement is evaluated.
    - A JavaScript number is a [Z] (limits, counts and HTTP statuses are
      integers).
    - A promise is a computation over the log of requests issued so far
      that settles as [Fulfilled] or [Rejected]; the remote API is a
      Section variable. *)

From Stdlib Require Import String Ascii List ZArith Lia Bool DecimalString.
Import ListNotations.
Open Scope string_scope.

Set Implicit Arguments.

(** ** JavaScript strings *)

Module JsString.

(** [s.startsWith(q)]: [q] is read off the front of [s]. *)
Fixpoint startsWith (s q : string) {struct q} : bool :=
  match q, s with
  | EmptyString, _ => true
  | String a q', String b s' => Ascii.eqb a b && startsWith s' q'
  | String _ _, EmptyString => false
  end.

(** [s.includes(q)]: [q] occurs at some position of [s]. *)
Fixpoint includes (s q : string) : bool :=
  startsWith s q ||
  match s with
  | EmptyString => false
  | String _ s' => includes s' q
  end.

(** Substring containment, as a proposition. *)
Definition substring_of (q s : string) : Prop :=
  exists pre post, s = pre ++ q ++ post.

Definition is_upper (c : ascii) : bool :=
  let n := nat_of_ascii c in (65 <=? n)%nat && (n <=? 90)%nat.

Definition lower_char (c : ascii) : ascii :=
  if is_upper c then ascii_of_nat (nat_of_ascii c + 32) else c.

(** [s.toLowerCase()] on the ASCII range: [A]..[Z] go to [a]..[z],
    every other code unit is kept. *)
Fixpoint toLowerCase (s : string) : string :=
  match s with
  | EmptyString => EmptyString
  | String c s' => String (lower_char c) (toLowerCase s')
  end.

(** White space of the ASCII range: TAB, LF, VT, FF, CR and SPACE. *)
Definition is_space (c : ascii) : bool :=
  let n := nat_of_ascii c in
  ((9 <=? n)%nat && (n <=? 13)%nat) || (n =? 32)%nat.

Fixpoint trimStart (s : string) : string :=
  match s with
  | EmptyString => EmptyString
  | String c s' => if is_space c then trimStart s' else s
  end.

Fixpoint rev (s : string) : string :=
  match s with
  | EmptyString => EmptyString
  | String c s' => rev s' ++ String c EmptyString
  end.

(** [s.trim()] on the ASCII range. *)
Definition trim (s : string) : string :=
  rev (trimStart (rev (trimStart s))).

(** Two strings that differ only in the case of their letters: the same
    length, and at each position the same code unit or the two cases of
    one letter. *)
Inductive case_variant : string -> string -> Prop :=
| cv_nil : case_variant EmptyString EmptyString
| cv_same c s t :
    case_variant s t -> case_variant (String c s) (String c t)
| cv_lower c s t :
    is_upper c = true ->
    case_variant s t -> case_variant (String c s) (String (lower_char c) t)
| cv_upper c s t :
    is_upper c = true ->
    case_variant s t -> case_variant (String (lower_char c) s) (String c t).

End JsString.

(** JavaScript truthiness of the values the client tests with [||] and [!]:
  an absent or empty string and an absent or zero number are falsy. *)
Definition truthy_string (s : option string) : bool :=
match s with
| Some s' => negb (s' =? "")
| None => false
end.

(** [a || b] where [a] is a possibly absent string and [b] a string. *)
Definition or_string (a : option string) (b : string) : string :=
match a with
| Some s => if s =? "" then b else s
| None => b
end.

(** [a || b] where both sides may be absent. *)
Definition or_string_opt (a b : option string) : option string :=
if truthy_string a then a else b.

(** Template-literal rendering of a number. *)
Definition string_of_number (n : Z) : string :=
NilZero.string_of_int (Z.to_int n).

(** ** The data model ([src/limitless/types.ts]) *)

(** [LimitlessConfigSchema]: both fields may be absent when the client is
  constructed. *)
Module LimitlessConfig.
Record t := mk {
  apiKey : option string;
  baseUrl : option string
}.
End LimitlessConfig.

Inductive ContentType := heading1 | heading2 | blockquote | text.

Module LifelogContentItem.
Record t := mk {
  content : string;
  type : ContentType;
  startTime : option string;
  endTime : option string;
  startOffsetMs : option Z;
  endOffsetMs : option Z;
  speakerName : option string
}.
End LifelogContentItem.

Module LifelogEntry.
Record t := mk {
  id : string;
  title : string;
  startTime : string;
  endTime : string;
  contents : list LifelogContentItem.t;
  markdown : option string;
  isStarred : bool;
  updatedAt : option string
}.
End LifelogEntry.

Inductive SortDirection := asc | desc.

Module ListLifelogsParams.
Record t := mk {
  date : option string;
  timezone : option string;
  start_time : option string;
  end_time : option string;
  cursor : option string;
  sort_direction : option SortDirection;
  limit : Z
}.
End ListLifelogsParams.

(** [meta.lifelogs.count]. *)
Record Meta := { meta_lifelogs_count : Z }.

(** [ListLifelogsResponse]: [data.lifelogs] and the optional [meta]. *)
Module ListLifelogsResponse.
Record t := mk {
  data_lifelogs : list LifelogEntry.t;
  meta : option Meta
}.
End ListLifelogsResponse.

(** [GetLifelogResponse]: [data.lifelog]. *)
Module GetLifelogResponse.
Record t := mk { data_lifelog : LifelogEntry.t }.
End GetLifelogResponse.

(** [LimitlessErrorSchema], the body of an error reply.  The client reads
  it through [?.], so every field may be missing. *)
Module LimitlessError.
Record t := mk {
  error : option string;
  message : option string;
  status_code : option Z
}.
End LimitlessError.

Module SearchLifelogsParams.
Record t := mk {
  query : string;
  date_from : option string;
  date_to : option string;
  timezone : option string;
  cursor : option string;
  limit : Z
}.
End SearchLifelogsParams.

(** ** Axios: instances, requests, replies and errors *)

Module Axios.

(** What [axios.create] is given. *)
Record Instance := create {
  baseURL : string;
  X_API_Key : string;
  Content_Type : string;
  timeout : Z
}.

(** A request as it leaves the process: the instance it goes through,
    the path, and the query parameters when there are any. *)
Record Request := mkRequest {
  via : Instance;
  url : string;
  params : option ListLifelogsParams.t
}.

(** A reply with a 2xx status. *)
Record Response (T : Type) := mkResponse { data : T; status : Z }.

(** [error.response] of an [AxiosError]: the status and the body, which
    is absent when it could not be read as an object. *)
Record ErrorResponse := mkErrorResponse {
  err_status : Z;
  err_data : option LimitlessError.t
}.

(** An [AxiosError]: the transport's own [message], and the reply when
    the server sent one. *)
Record Error := mkError {
  message : string;
  response : option ErrorResponse
}.

End Axios.

(** ** Thrown values and promises *)

Inductive Thrown :=
| ThrownAxios (e : Axios.Error)
  (** a value for which [axios.isAxiosError] holds *)
| ThrownError (message : string)
  (** any other [Error] instance *)
| ThrownMcp (code : Z) (message : string)
  (** an [McpError] of the protocol SDK: an [Error] carrying a code *)
| ThrownValue (rendering : string)
  (** a value that is not an [Error], with its [String(...)] rendering *).

Inductive Settled (A : Type) :=
| Fulfilled (a : A)
| Rejected (e : Thrown).

Arguments Fulfilled {A} a.
Arguments Rejected {A} e.

(** An asynchronous computation: from the requests issued so far to how it
  settles and the requests issued by then. *)
Definition Async (A : Type) : Type :=
list Axios.Request -> Settled A * list Axios.Request.

Definition ret {A} (a : A) : Async A := fun log => (Fulfilled a, log).

Definition throw {A} (e : Thrown) : Async A := fun log => (Rejected e, log).

Definition bind {A B} (m : Async A) (k : A -> Async B) : Async B :=
fun log =>
  match m log with
  | (Fulfilled a, log') => k a log'
  | (Rejected e, log') => (Rejected e, log')
  end.

(** [try { m } catch (error) { h error }]. *)
Definition try_catch {A} (m : Async A) (h : Thrown -> Async A) : Async A :=
fun log =>
  match m log with
  | (Fulfilled a, log') => (Fulfilled a, log')
  | (Rejected e, log') => h e log'
  end.

Notation "x <- m ;; k" := (bind m (fun x => k))
(at level 61, m at next level, right associativity).

(** The remote API for one endpoint: how a request settles, given the
  requests that came before it. *)
Definition Remote (T : Type) : Type :=
list Axios.Request -> Axios.Request -> Settled (Axios.Response T).

(** [api.get(url, { params })]: one request goes out and is logged. *)
Definition axios_get {T} (remote : Remote T) (api : Axios.Instance)
  (url : string) (params : option ListLifelogsParams.t)
  : Async (Axios.Response T) :=
fun log =>
  let r := Axios.mkRequest api url params in
  (remote log r, (log ++ [r])%list).

(** ** Tool arguments and their schemas (zod) *)

(** The values a tool call can carry for one argument. *)
Inductive JsVal :=
| JUndefined
| JNull
| JBool (b : bool)
| JNumber (n : Z)
| JString (s : string).

(** The [arguments] object of a tool call; a key that is not listed reads
  as [undefined]. *)
Definition Args := list (string * JsVal).

Fixpoint get_arg (key : string) (args : Args) : JsVal :=
match args with
| [] => JUndefined
| (k, v) :: rest => if k =? key then v else get_arg key rest
end.

(** A schema parses a value or refuses it ([safeParse]). *)
Definition Schema (T : Type) : Type := JsVal -> option T.

Definition z_string : Schema string :=
fun v => match v with JString s => Some s | _ => None end.

Definition z_number : Schema Z :=
fun v => match v with JNumber n => Some n | _ => None end.

(** [.min(n)] on a string schema: at least [n] code units. *)
Definition z_min_length (n : nat) (s : Schema string) : Schema string :=
fun v =>
  match s v with
  | Some x => if (n <=? String.length x)%nat then Some x else None
  | None => None
  end.

(** [.min(k)] and [.max(k)] on a number schema. *)
Definition z_min (k : Z) (s : Schema Z) : Schema Z :=
fun v =>
  match s v with
  | Some x => if (k <=? x)%Z then Some x else None
  | None => None
  end.

Definition z_max (k : Z) (s : Schema Z) : Schema Z :=
fun v =>
  match s v with
  | Some x => if (x <=? k)%Z then Some x else None
  | None => None
  end.

(** [z.enum([...])], each literal paired with the value it stands for. *)
Fixpoint z_enum {T} (cases : list (string * T)) : Schema T :=
fun v =>
  match cases, v with
  | (k, t) :: rest, JString s => if k =? s then Some t else z_enum rest v
  | _, _ => None
  end.

(** [.optional()]: [undefined] is accepted as it is. *)
Definition z_optional {T} (s : Schema T) : Schema (option T) :=
fun v =>
  match v with
  | JUndefined => Some None
  | _ => option_map Some (s v)
  end.

(** [.default(d)]: [undefined] is replaced by [d] before the inner schema
  runs, so the result is never [undefined]. *)
Definition z_default {T} (d : JsVal) (s : Schema (option T)) : Schema T :=
fun v =>
  match s (match v with JUndefined => d | _ => v end) with
  | Some (Some x) => Some x
  | _ => None
  end.

Notation "'let?' x := e 'in' k" :=
(match e with Some x => k | None => None end)
(at level 10, x name, e at level 100, k at level 200).

(** [ErrorCode.InvalidParams] of the protocol SDK. *)
Definition InvalidParams : Z := (-32602)%Z.

(** The result of a tool call: the text of its one content item and the
    [isError] flag. *)
Record CallToolResult := mkCallToolResult {
  content_text : string;
  isError : bool
}.

(** [error instanceof Error ? error.message : String(error)]. *)
Definition thrown_text (thrown : Thrown) : string :=
  match thrown with
  | ThrownAxios e => Axios.message e
  | ThrownError m | ThrownMcp _ m => m
  | ThrownValue s => s
  end.

(** What the SDK's server does with a call to a tool registered by
    [server.tool(name, description, schema, annotations, cb)].  The
    arguments are parsed against the schema.  When the schema refuses them
    the callback does not run, so nothing is requested, and the answer is
    the SDK's own, [refusal]: in some versions an [McpError] with the code
    [InvalidParams] is thrown, in others a result with [isError] set is
    returned, and its text carries the issues of the schema.  Otherwise
    the callback runs on the parsed arguments: the text it returns is the
    content of the result, and a value it throws is caught and becomes the
    text of a result with [isError] set. *)
Definition callTool {P} (refusal : string -> Args -> Settled CallToolResult)
    (name : string) (inputSchema : Args -> option P)
    (cb : P -> Async string) (args : Args) : Async CallToolResult :=
  match inputSchema args with
  | None => fun log => (refusal name args, log)
  | Some p =>
      try_catch
        (answer <- cb p ;; ret (mkCallToolResult answer false))
        (fun thrown => ret (mkCallToolResult (thrown_text thrown) true))
  end.

Definition dquote : string := String (ascii_of_nat 34) EmptyString.

(** ** The client ([src/limitless/client.ts]) *)

Record LimitlessClient := mkClient {
config : LimitlessConfig.t;
api : Axios.Instance
}.

Section Client.

(** [String.prototype.toLowerCase] and [String.prototype.trim]. *)
Variable toLowerCase : string -> string.
Variable trim : string -> string.

(** [process.env.LIMITLESS_API_KEY]. *)
Variable env_LIMITLESS_API_KEY : option string.

(** The remote API behind [GET /v1/lifelogs] and [GET /v1/lifelogs/{id}]. *)
Variable remote_lifelogs : Remote ListLifelogsResponse.t.
Variable remote_lifelog : Remote GetLifelogResponse.t.

(** The text shaping of non-empty results, which renders time stamps in
    the locale of the host. *)
Variable format_lifelogs :
  ListLifelogsParams.t -> ListLifelogsResponse.t -> string.
Variable format_entry : LifelogEntry.t -> string.
Variable format_matches :
  SearchLifelogsParams.t -> ListLifelogsResponse.t -> string.

Definition api_key_required : string :=
  "Limitless API key is required. Provide it via config or set LIMITLESS_API_KEY environment variable. " ++
  "Get your API key from https://www.limitless.ai/developers".

(** [new LimitlessClient(config)]. *)
Definition new_LimitlessClient (config : LimitlessConfig.t)
    : Settled LimitlessClient :=
  let apiKey :=
    or_string_opt (LimitlessConfig.apiKey config) env_LIMITLESS_API_KEY in
  match apiKey with
  | None => Rejected (ThrownError api_key_required)
  | Some key =>
      if (key =? "") || (trim key =? "")
      then Rejected (ThrownError api_key_required)
      else
        Fulfilled
          (mkClient config
             (Axios.create
                (or_string (LimitlessConfig.baseUrl config)
                   "https://api.limitless.ai")
                key
                "application/json"
                30000))
  end.

(** [error.response?.data?.message]. *)
Definition response_data_message (error : Axios.Error) : option string :=
  match Axios.response error with
  | Some r =>
      match Axios.err_data r with
      | Some body => LimitlessError.message body
      | None => None
      end
  | None => None
  end.

(** [error.response?.status || "unknown"], as the template literal
    renders it. *)
Definition response_status (error : Axios.Error) : string :=
  match Axios.response error with
  | Some r =>
      if (Axios.err_status r =? 0)%Z then "unknown"
      else string_of_number (Axios.err_status r)
  | None => "unknown"
  end.

(** [handleRequest]: the reply's [data], or the thrown value rewrapped. *)
Definition handleRequest {T} (request : Async (Axios.Response T))
    : Async T :=
  try_catch
    (r <- request ;; ret (Axios.data r))
    (fun error =>
       match error with
       | ThrownAxios e =>
           let message := or_string (response_data_message e) (Axios.message e) in
           let status := response_status e in
           throw (ThrownError
                    ("Limitless API error (" ++ status ++ "): " ++ message))
       | ThrownError m | ThrownMcp _ m =>
           throw (ThrownError ("Limitless API error: " ++ m))
       | ThrownValue s =>
           throw (ThrownError ("Limitless API error: " ++ s))
       end).

(** The text [handleRequest] puts in the error it throws for [e]. *)
Definition rewrapped (e : Thrown) : string :=
  match e with
  | ThrownAxios e =>
      "Limitless API error (" ++ response_status e ++ "): " ++
      or_string (response_data_message e) (Axios.message e)
  | ThrownError m | ThrownMcp _ m => "Limitless API error: " ++ m
  | ThrownValue s => "Limitless API error: " ++ s
  end.

Definition default_list_params : ListLifelogsParams.t :=
  ListLifelogsParams.mk None None None None None None 10.

(** [getLifelogs(params = { limit: 10 })]. *)
Definition getLifelogs (this : LimitlessClient)
    (params : option ListLifelogsParams.t)
    : Async ListLifelogsResponse.t :=
  let params :=
    match params with Some p => p | None => default_list_params end in
  handleRequest
    (axios_get remote_lifelogs (api this) "/v1/lifelogs" (Some params)).

(** [getLifelog(lifelogId)]. *)
Definition getLifelog (this : LimitlessClient) (lifelogId : string)
    : Async LifelogEntry.t :=
  response <-
    handleRequest
      (axios_get remote_lifelog (api this) ("/v1/lifelogs/" ++ lifelogId) None) ;;
  ret (GetLifelogResponse.data_lifelog response).

(** The list parameters [searchLifelogs] builds. *)
Definition search_list_params (params : SearchLifelogsParams.t)
    : ListLifelogsParams.t :=
  ListLifelogsParams.mk
    (SearchLifelogsParams.date_from params)
    None None None
    (SearchLifelogsParams.cursor params)
    None
    (SearchLifelogsParams.limit params).

(** The callback of [filter] in [searchLifelogs]; [query] is already in
    lower case. *)
Definition entry_matches (query : string) (entry : LifelogEntry.t) : bool :=
  if JsString.includes (toLowerCase (LifelogEntry.title entry)) query
  then true
  else if
    match LifelogEntry.markdown entry with
    | Some markdown => JsString.includes (toLowerCase markdown) query
    | None => false
    end
  then true
  else
    existsb
      (fun item =>
         JsString.includes
           (toLowerCase (LifelogContentItem.content item)) query)
      (LifelogEntry.contents entry).

(** [searchLifelogs(params)]. *)
Definition searchLifelogs (this : LimitlessClient)
    (params : SearchLifelogsParams.t) : Async ListLifelogsResponse.t :=
  allEntries <- getLifelogs this (Some (search_list_params params)) ;;
  let query := toLowerCase (SearchLifelogsParams.query params) in
  let filteredEntries :=
    filter (entry_matches query)
      (ListLifelogsResponse.data_lifelogs allEntries) in
  ret (ListLifelogsResponse.mk filteredEntries
         (ListLifelogsResponse.meta allEntries)).

(** *** The registered tools *)

(** What the SDK answers to a call whose arguments the input schema of the
    tool refuses, by the name of the tool and the arguments. *)
Variable sdk_refusal : string -> Args -> Settled CallToolResult.

Definition limit_schema : Schema Z :=
  z_default (JNumber 10) (z_optional (z_max 10 (z_min 1 z_number))).

Definition getLifelogs_schema (args : Args) : option ListLifelogsParams.t :=
  let? date := z_optional z_string (get_arg "date" args) in
  let? timezone := z_optional z_string (get_arg "timezone" args) in
  let? start_time := z_optional z_string (get_arg "start_time" args) in
  let? end_time := z_optional z_string (get_arg "end_time" args) in
  let? cursor := z_optional z_string (get_arg "cursor" args) in
  let? sort_direction :=
    z_optional (z_enum [("asc", asc); ("desc", desc)])
      (get_arg "sort_direction" args) in
  let? limit := limit_schema (get_arg "limit" args) in
  Some (ListLifelogsParams.mk date timezone start_time end_time cursor
          sort_direction limit).

Definition getLifelogs_tool (this : LimitlessClient)
    : Args -> Async CallToolResult :=
  callTool sdk_refusal "getLifelogs" getLifelogs_schema
    (fun params =>
       response <- getLifelogs this (Some params) ;;
       match ListLifelogsResponse.data_lifelogs response with
       | [] => ret "No lifelog entries found for the specified criteria."
       | _ :: _ => ret (format_lifelogs params response)
       end).

Definition getLifelogEntry_schema (args : Args) : option string :=
  z_min_length 1 z_string (get_arg "lifelog_id" args).

Definition getLifelogEntry_tool (this : LimitlessClient)
    : Args -> Async CallToolResult :=
  callTool sdk_refusal "getLifelogEntry" getLifelogEntry_schema
    (fun lifelog_id =>
       entry <- getLifelog this lifelog_id ;;
       ret (format_entry entry)).

Definition searchLifelogs_schema (args : Args)
    : option SearchLifelogsParams.t :=
  let? query := z_min_length 1 z_string (get_arg "query" args) in
  let? date_from := z_optional z_string (get_arg "date_from" args) in
  let? date_to := z_optional z_string (get_arg "date_to" args) in
  let? timezone := z_optional z_string (get_arg "timezone" args) in
  let? cursor := z_optional z_string (get_arg "cursor" args) in
  let? limit := limit_schema (get_arg "limit" args) in
  Some (SearchLifelogsParams.mk query date_from date_to timezone cursor
          limit).

Definition searchLifelogs_tool (this : LimitlessClient)
    : Args -> Async CallToolResult :=
  callTool sdk_refusal "searchLifelogs" searchLifelogs_schema
    (fun params =>
       response <- searchLifelogs this params ;;
       match ListLifelogsResponse.data_lifelogs response with
       | [] =>
           ret ("No lifelog entries found matching " ++ dquote ++
                SearchLifelogsParams.query params ++ dquote ++ ".")
       | _ :: _ => ret (format_matches params response)
       end).

End Client.

(** A list obtained from another by dropping elements, the order of the
  rest kept. *)
Inductive Subseq {A : Type} : list A -> list A -> Prop :=
| Subseq_nil : Subseq [] []
| Subseq_drop x l1 l2 : Subseq l1 l2 -> Subseq l1 (x :: l2)
| Subseq_keep x l1 l2 : Subseq l1 l2 -> Subseq (x :: l1) (x :: l2).

(** A credential that is missing or empty. *)
Definition absent_credential (k : option string) : Prop :=
k = None \/ k = Some "".

(** A tool argument that is a string of at least one code unit. *)
Definition is_nonempty_string (v : JsVal) : bool :=
match v with
| JString s => negb (s =? "")
| _ => false
end.

(** ** Fixed inputs on which the statements below are evaluated *)

Module Sample.

Definition entry (title : string) (contents : list LifelogContentItem.t)
    (markdown : option string) : LifelogEntry.t :=
  LifelogEntry.mk "lifelog_1" title "2025-11-05T14:30:00Z"
    "2025-11-05T15:00:00Z" contents markdown false None.

Definition item (content : string) : LifelogContentItem.t :=
  LifelogContentItem.mk content text None None None None None.

Definition meeting : LifelogEntry.t := entry "Team meeting notes" [] None.

Definition grocery : LifelogEntry.t :=
  entry "Grocery list" [item "Buy milk"] (Some "# Grocery list").

Definition standup : LifelogEntry.t :=
  entry "Standup" [item "Agenda"; item "Next MEETING is on Friday"] None.

Definition page : ListLifelogsResponse.t :=
  ListLifelogsResponse.mk [meeting; grocery; standup]
    (Some {| meta_lifelogs_count := 3 |}).

(** A remote that answers every list request with [page]. *)
Definition remote_page : Remote ListLifelogsResponse.t :=
  fun _ _ => Fulfilled (Axios.mkResponse page 200).

(** A remote that refuses every list request with the given error. *)
Definition remote_failing (e : Thrown) : Remote ListLifelogsResponse.t :=
  fun _ _ => Rejected e.

Definition remote_entry : Remote GetLifelogResponse.t :=
  fun _ _ => Fulfilled (Axios.mkResponse (GetLifelogResponse.mk meeting) 200).

Definition client : LimitlessClient :=
  mkClient (LimitlessConfig.mk (Some "sk-test") None)
    (Axios.create "https://api.limitless.ai" "sk-test" "application/json"
       30000).

Definition search (query : string) : SearchLifelogsParams.t :=
  SearchLifelogsParams.mk query (Some "2025-11-05") None None None 10.

(** An error reply whose body carries an empty [message]. *)
Definition error_empty_message : Axios.Error :=
  Axios.mkError "Request failed with status code 500"
    (Some (Axios.mkErrorResponse 500
             (Some (LimitlessError.mk (Some "internal_error") (Some "")
                      (Some 500%Z))))).

Definition error_not_found : Axios.Error :=
  Axios.mkError "Request failed with status code 404"
    (Some (Axios.mkErrorResponse 404
             (Some (LimitlessError.mk (Some "not_found")
                      (Some "Lifelog not found") (Some 404%Z))))).

(** A failure below HTTP: no reply at all. *)
Definition error_network : Axios.Error :=
  Axios.mkError "connect ECONNREFUSED" None.

(** The log after the one list request of a search issued on an empty log. *)
Definition search_log (params : SearchLifelogsParams.t) : list Axios.Request :=
  [Axios.mkRequest (api client) "/v1/lifelogs"
     (Some (search_list_params params))].

(** The list request of the client with the default parameters. *)
Definition list_request (remote : Remote ListLifelogsResponse.t)
    : Async (Axios.Response ListLifelogsResponse.t) :=
  axios_get remote (api client) "/v1/lifelogs" (Some default_list_params).

Definition format_lifelogs (_ : ListLifelogsParams.t)
    (_ : ListLifelogsResponse.t) : string := "".

Definition format_entry (_ : LifelogEntry.t) : string := "".

(** The refusal of an SDK that throws: an [McpError] that names the tool. *)
Definition sdk_refusal (name : string) (_ : Args) : Settled CallToolResult :=
  Rejected
    (ThrownMcp InvalidParams
       ("MCP error -32602: Invalid arguments for tool " ++ name)).

End Sample.

(** ** The exported parameter schemas ([src/limitless/types.ts]) *)

(** [.default(d)] on a schema that is not optional: [undefined] is
    replaced by [d] before the schema runs. *)
Definition z_default_value {T} (d : JsVal) (s : Schema T) : Schema T :=
  fun v => s (match v with JUndefined => d | _ => v end).

Definition ListLifelogsParamsSchema (args : Args)
    : option ListLifelogsParams.t :=
  let? date := z_optional z_string (get_arg "date" args) in
  let? timezone := z_optional z_string (get_arg "timezone" args) in
  let? start_time := z_optional z_string (get_arg "start_time" args) in
  let? end_time := z_optional z_string (get_arg "end_time" args) in
  let? cursor := z_optional z_string (get_arg "cursor" args) in
  let? sort_direction :=
    z_optional (z_enum [("asc", asc); ("desc", desc)])
      (get_arg "sort_direction" args) in
  let? limit :=
    z_default_value (JNumber 10) (z_max 10 (z_min 1 z_number))
      (get_arg "limit" args) in
  Some (ListLifelogsParams.mk date timezone start_time end_time cursor
          sort_direction limit).

Definition GetLifelogParamsSchema (args : Args) : option string :=
  z_min_length 1 z_string (get_arg "lifelog_id" args).

Definition SearchLifelogsParamsSchema (args : Args)
    : option SearchLifelogsParams.t :=
  let? query := z_min_length 1 z_string (get_arg "query" args) in
  let? date_from := z_optional z_string (get_arg "date_from" args) in
  let? date_to := z_optional z_string (get_arg "date_to" args) in
  let? timezone := z_optional z_string (get_arg "timezone" args) in
  let? cursor := z_optional z_string (get_arg "cursor" args) in
  let? limit :=
    z_default_value (JNumber 10) (z_max 10 (z_min 1 z_number))
      (get_arg "limit" args) in
  Some (SearchLifelogsParams.mk query date_from date_to timezone cursor
          limit).

(** ** The text of the tool results ([registerLimitlessTools]) *)

(** The line feed of the template literals. *)
Definition nl : string := String (ascii_of_nat 10) EmptyString.

(** [array.length]. *)
Definition array_length {A} (l : list A) : Z := Z.of_nat (length l).

(** [error instanceof Error ? error.message : "Unknown error"]. *)
Definition error_message (error : Thrown) : string :=
  match error with
  | ThrownAxios e => Axios.message e
  | ThrownError m | ThrownMcp _ m => m
  | ThrownValue _ => "Unknown error"
  end.

Section Presentation.

Variable toLowerCase : string -> string.

(** [new Date(s).toLocaleString()] and [new Date(s).toLocaleTimeString()],
    which depend on the locale and the time zone of the host. *)
Variable toLocaleString : string -> string.
Variable toLocaleTimeString : string -> string.

(** The rendering of [Math.round((new Date(e).getTime() -
    new Date(s).getTime()) / 60000)] for the time stamps [s] and [e]. *)
Variable minutes_between : string -> string -> string.

Definition is_heading2 (item : LifelogContentItem.t) : bool :=
  match LifelogContentItem.type item with
  | heading2 => true
  | _ => false
  end.

(** [entry.contents.filter(...).map(...).join("\n")] of the [getLifelogs]
    tool. *)
Definition headings (entry : LifelogEntry.t) : string :=
  String.concat nl
    (map (fun item => "• " ++ LifelogContentItem.content item)
       (filter is_heading2 (LifelogEntry.contents entry))).

(** What one iteration of the loop of the [getLifelogs] tool appends. *)
Definition getLifelogs_entry_text (entry : LifelogEntry.t) : string :=
  "## " ++ LifelogEntry.title entry ++ nl ++
  "**ID:** " ++ LifelogEntry.id entry ++ nl ++
  "**Time:** " ++ toLocaleString (LifelogEntry.startTime entry) ++ " - " ++
    toLocaleString (LifelogEntry.endTime entry) ++ nl ++
  (if LifelogEntry.isStarred entry then "⭐ **Starred**" ++ nl else "") ++
  (if headings entry =? "" then ""
   else nl ++ "**Topics:**" ++ nl ++ headings entry ++ nl) ++
  nl ++ "---" ++ nl ++ nl.

(** The text of the [getLifelogs] tool for a page that is not empty. *)
Definition getLifelogs_text (params : ListLifelogsParams.t)
    (response : ListLifelogsResponse.t) : string :=
  let lifelogs := ListLifelogsResponse.data_lifelogs response in
  "Found " ++ string_of_number (array_length lifelogs) ++ " lifelog entries" ++
  match ListLifelogsParams.date params with
  | Some date => if date =? "" then "" else " for " ++ date
  | None => ""
  end ++
  ":" ++ nl ++ nl ++
  String.concat "" (map getLifelogs_entry_text lifelogs) ++
  match ListLifelogsResponse.meta response with
  | Some meta =>
      if (array_length lifelogs <? meta_lifelogs_count meta)%Z
      then "💡 Showing " ++ string_of_number (array_length lifelogs) ++
           " of " ++ string_of_number (meta_lifelogs_count meta) ++
           " total entries." ++ nl
      else ""
  | None => ""
  end.

(** What the loop over [entry.contents] of the [getLifelogEntry] tool
    appends for one item. *)
Definition getLifelogEntry_item_text (item : LifelogContentItem.t) : string :=
  match LifelogContentItem.type item with
  | heading1 => "# " ++ LifelogContentItem.content item ++ nl ++ nl
  | heading2 => "## " ++ LifelogContentItem.content item ++ nl ++ nl
  | blockquote =>
      let speaker := or_string (LifelogContentItem.speakerName item) "Unknown" in
      let time :=
        match LifelogContentItem.startTime item with
        | Some t => if t =? "" then "" else toLocaleTimeString t
        | None => ""
        end in
      "> **" ++ speaker ++ "** " ++ time ++ ": " ++
      LifelogContentItem.content item ++ nl ++ nl
  | text => LifelogContentItem.content item ++ nl ++ nl
  end.

(** The text of the [getLifelogEntry] tool. *)
Definition getLifelogEntry_text (entry : LifelogEntry.t) : string :=
  "## " ++ LifelogEntry.title entry ++ nl ++ nl ++
  "**ID:** " ++ LifelogEntry.id entry ++ nl ++
  "**Time:** " ++ toLocaleString (LifelogEntry.startTime entry) ++ " - " ++
    toLocaleString (LifelogEntry.endTime entry) ++ nl ++
  "**Duration:** " ++
    minutes_between (LifelogEntry.startTime entry) (LifelogEntry.endTime entry)
    ++ " minutes" ++ nl ++
  (if LifelogEntry.isStarred entry then "⭐ **Starred**" ++ nl else "") ++
  match LifelogEntry.updatedAt entry with
  | Some updatedAt =>
      if updatedAt =? "" then ""
      else "**Last Updated:** " ++ toLocaleString updatedAt ++ nl
  | None => ""
  end ++
  nl ++ "### Content:" ++ nl ++ nl ++
  String.concat "" (map getLifelogEntry_item_text (LifelogEntry.contents entry)) ++
  match LifelogEntry.markdown entry with
  | Some markdown =>
      if markdown =? "" then ""
      else nl ++ "### Full Markdown:" ++ nl ++ nl ++ markdown ++ nl
  | None => ""
  end.

(** [entry.contents.filter(...)] of the [searchLifelogs] tool; the query is
    the one of the call, lower-cased here once more. *)
Definition matchingItems (query : string) (entry : LifelogEntry.t)
    : list LifelogContentItem.t :=
  filter
    (fun item =>
       JsString.includes (toLowerCase (LifelogContentItem.content item))
         (toLowerCase query))
    (LifelogEntry.contents entry).

Definition excerpt_text (item : LifelogContentItem.t) : string :=
  match LifelogContentItem.type item with
  | blockquote =>
      "> **" ++ or_string (LifelogContentItem.speakerName item) "Unknown" ++
      "**: " ++ LifelogContentItem.content item ++ nl
  | _ => "> " ++ LifelogContentItem.content item ++ nl
  end.

(** The excerpts shown for one entry: at most three, then the number of
    those left out. *)
Definition excerpts_text (items : list LifelogContentItem.t) : string :=
  match items with
  | [] => ""
  | _ :: _ =>
      nl ++ "**Matching excerpts:**" ++ nl ++
      String.concat "" (map excerpt_text (firstn 3 items)) ++
      (if (3 <? array_length items)%Z
       then "> ... and " ++ string_of_number (array_length items - 3) ++
            " more matches" ++ nl
       else "")
  end.

Definition searchLifelogs_entry_text (query : string) (entry : LifelogEntry.t)
    : string :=
  "## " ++ LifelogEntry.title entry ++ nl ++
  "**ID:** " ++ LifelogEntry.id entry ++ nl ++
  "**Time:** " ++ toLocaleString (LifelogEntry.startTime entry) ++ " - " ++
    toLocaleString (LifelogEntry.endTime entry) ++ nl ++
  excerpts_text (matchingItems query entry) ++
  nl ++ "---" ++ nl ++ nl.

(** The text of the [searchLifelogs] tool for a page that is not empty. *)
Definition searchLifelogs_text (params : SearchLifelogsParams.t)
    (response : ListLifelogsResponse.t) : string :=
  let lifelogs := ListLifelogsResponse.data_lifelogs response in
  "Found " ++ string_of_number (array_length lifelogs) ++
  " lifelog entries matching " ++ dquote ++
  SearchLifelogsParams.query params ++ dquote ++ ":" ++ nl ++ nl ++
  String.concat ""
    (map (searchLifelogs_entry_text (SearchLifelogsParams.query params))
       lifelogs) ++
  match ListLifelogsResponse.meta response with
  | Some meta =>
      if (array_length lifelogs <? meta_lifelogs_count meta)%Z
      then "💡 Showing " ++ string_of_number (array_length lifelogs) ++
           " of " ++ string_of_number (meta_lifelogs_count meta) ++
           " matching entries." ++ nl
      else ""
  | None => ""
  end.

End Presentation.

(** ** The resources ([registerLimitlessResources]) *)

Module ResourceContent.
Record t := mk {
  uri : string;
  text : string;
  mimeType : string
}.
End ResourceContent.

(** [dayOfWeek === 0 ? -6 : 1 - dayOfWeek], the number of days from today
    to the Monday of the week. *)
Definition mondayOffset (dayOfWeek : Z) : Z :=
  if (dayOfWeek =? 0)%Z then (-6)%Z else (1 - dayOfWeek)%Z.

Section Resources.

Variable toLocaleString : string -> string.
Variable remote_lifelogs : Remote ListLifelogsResponse.t.

(** [new Date().toISOString().split("T")[0]] at the time of the call: the
    calendar date in UTC. *)
Variable today : string.

(** [new Date().getDay()] at the time of the call, a day of the week in
    local time, and [toISOString().split("T")[0]] of the moment reached
    from now by [setDate(getDate() + n)]: the calendar date in UTC of a
    moment that was moved in local time. *)
Variable getDay : Z.
Variable date_after : Z -> string.

Definition list_params (date : option string) : ListLifelogsParams.t :=
  ListLifelogsParams.mk date None None None None None 10.

(** The resource [limitless://lifelogs/today]. *)
Definition today_lifelogs (this : LimitlessClient)
    : Async (list ResourceContent.t) :=
  let uri := "limitless://lifelogs/today" in
  try_catch
    (response <-
       getLifelogs remote_lifelogs this (Some (list_params (Some today))) ;;
     match ListLifelogsResponse.data_lifelogs response with
     | [] =>
         ret [ResourceContent.mk uri
                ("No lifelog entries found for today (" ++ today ++ ").")
                "text/plain"]
     | lifelogs =>
         ret [ResourceContent.mk uri
                ("# Today's Lifelog Entries (" ++ today ++ ")" ++ nl ++ nl ++
                 "Found " ++ string_of_number (array_length lifelogs) ++
                 " entries:" ++ nl ++ nl ++
                 String.concat ""
                   (map
                      (fun entry =>
                         "## " ++ LifelogEntry.title entry ++ nl ++
                         "**ID:** " ++ LifelogEntry.id entry ++ nl ++
                         "**Time:** " ++
                           toLocaleString (LifelogEntry.startTime entry) ++
                           " - " ++
                           toLocaleString (LifelogEntry.endTime entry) ++ nl ++
                         (if LifelogEntry.isStarred entry
                          then "**Status:** ⭐ Starred" ++ nl else "") ++
                         nl)
                      lifelogs))
                "text/markdown"]
     end)
    (fun error =>
       ret [ResourceContent.mk uri
              ("Error fetching today's lifelogs: " ++ error_message error)
              "text/plain"]).

(** The resource [limitless://lifelogs/recent]. *)
Definition recent_lifelogs (this : LimitlessClient)
    : Async (list ResourceContent.t) :=
  let uri := "limitless://lifelogs/recent" in
  try_catch
    (response <- getLifelogs remote_lifelogs this (Some (list_params None)) ;;
     match ListLifelogsResponse.data_lifelogs response with
     | [] =>
         ret [ResourceContent.mk uri "No recent lifelog entries found."
                "text/plain"]
     | lifelogs =>
         ret [ResourceContent.mk uri
                ("# Recent Lifelog Entries" ++ nl ++ nl ++
                 "Found " ++ string_of_number (array_length lifelogs) ++
                 " recent entries:" ++ nl ++ nl ++
                 String.concat ""
                   (map
                      (fun entry =>
                         "## " ++ LifelogEntry.title entry ++ nl ++
                         "**ID:** " ++ LifelogEntry.id entry ++ nl ++
                         "**Time:** " ++
                           toLocaleString (LifelogEntry.startTime entry) ++ nl ++
                         nl)
                      lifelogs))
                "text/markdown"]
     end)
    (fun error =>
       ret [ResourceContent.mk uri
              ("Error fetching recent lifelogs: " ++ error_message error)
              "text/plain"]).

(** The resource [limitless://lifelogs/week]. *)
Definition week_lifelogs (this : LimitlessClient)
    : Async (list ResourceContent.t) :=
  let uri := "limitless://lifelogs/week" in
  try_catch
    (let mondayStr := date_after (mondayOffset getDay) in
     response <-
       getLifelogs remote_lifelogs this (Some (list_params (Some mondayStr))) ;;
     match ListLifelogsResponse.data_lifelogs response with
     | [] =>
         ret [ResourceContent.mk uri
                ("No lifelog entries found for this week (starting " ++
                 mondayStr ++ ").")
                "text/plain"]
     | lifelogs =>
         ret [ResourceContent.mk uri
                ("# This Week's Lifelog Entries" ++ nl ++ nl ++
                 "Week starting: " ++ mondayStr ++ nl ++ nl ++
                 "Found " ++ string_of_number (array_length lifelogs) ++
                 " entries:" ++ nl ++ nl ++
                 String.concat ""
                   (map
                      (fun entry =>
                         "## " ++ LifelogEntry.title entry ++ nl ++
                         "**ID:** " ++ LifelogEntry.id entry ++ nl ++
                         "**Time:** " ++
                           toLocaleString (LifelogEntry.startTime entry) ++ nl ++
                         (if LifelogEntry.isStarred entry
                          then "**Status:** ⭐ Starred" ++ nl else "") ++
                         nl)
                      lifelogs))
                "text/markdown"]
     end)
    (fun error =>
       ret [ResourceContent.mk uri
              ("Error fetching this week's lifelogs: " ++ error_message error)
              "text/plain"]).

(** The resource [limitless://lifelogs/starred]. *)
Definition starred_lifelogs (this : LimitlessClient)
    : Async (list ResourceContent.t) :=
  let uri := "limitless://lifelogs/starred" in
  try_catch
    (response <- getLifelogs remote_lifelogs this (Some (list_params None)) ;;
     let starredEntries :=
       filter LifelogEntry.isStarred
         (ListLifelogsResponse.data_lifelogs response) in
     match starredEntries with
     | [] =>
         ret [ResourceContent.mk uri
                "No starred lifelog entries found. Star important entries in your Limitless app to see them here."
                "text/plain"]
     | _ :: _ =>
         ret [ResourceContent.mk uri
                ("# Starred Lifelog Entries" ++ nl ++ nl ++
                 "Found " ++ string_of_number (array_length starredEntries) ++
                 " starred entries:" ++ nl ++ nl ++
                 String.concat ""
                   (map
                      (fun entry =>
                         "## ⭐ " ++ LifelogEntry.title entry ++ nl ++
                         "**ID:** " ++ LifelogEntry.id entry ++ nl ++
                         "**Time:** " ++
                           toLocaleString (LifelogEntry.startTime entry) ++ nl ++
                         nl)
                      starredEntries))
                "text/markdown"]
     end)
    (fun error =>
       ret [ResourceContent.mk uri
              ("Error fetching starred lifelogs: " ++ error_message error)
              "text/plain"]).

End Resources.

(** ** The server ([src/index.ts]) *)

(** The protocol server, by what is registered on it: the names of the
    tools, the resources as name and URI, the names of the prompts. *)
Record McpServer := mkServer {
  registeredTools : list string;
  registeredResources : list (string * string);
  registeredPrompts : list string
}.

Definition new_McpServer : McpServer := mkServer [] [] [].

(** [server.tool(name, ...)] of the SDK: a name can be registered once. *)
Definition server_tool (name : string) (server : McpServer)
    : Settled McpServer :=
  if existsb (String.eqb name) (registeredTools server)
  then Rejected (ThrownError ("Tool " ++ name ++ " is already registered"))
  else
    Fulfilled
      (mkServer (registeredTools server ++ [name])%list
         (registeredResources server) (registeredPrompts server)).

(** [registerLimitlessTools(server)], by the registrations it makes. *)
Definition registerLimitlessTools (server : McpServer) : Settled McpServer :=
  match server_tool "getLifelogs" server with
  | Rejected e => Rejected e
  | Fulfilled server1 =>
      match server_tool "getLifelogEntry" server1 with
      | Rejected e => Rejected e
      | Fulfilled server2 => server_tool "searchLifelogs" server2
      end
  end.

Inductive LogLevel := level_info | level_warn | level_error.

(** [logMessage(level, message)]: the line written to the error stream. *)
Definition logMessage (level : LogLevel) (message : string) : string :=
  "[" ++
  match level with
  | level_info => "INFO"
  | level_warn => "WARN"
  | level_error => "ERROR"
  end ++
  "] " ++ message.

Section Server.

Variable trim : string -> string.
Variable env_LIMITLESS_API_KEY : option string.

(** [createServer({ config })]: the server or the value thrown, with the
    lines written to the error stream. *)
Definition createServer (config : LimitlessConfig.t)
    : Settled McpServer * list string :=
  let server := new_McpServer in
  match new_LimitlessClient trim env_LIMITLESS_API_KEY config with
  | Rejected e => (Rejected e, [])
  | Fulfilled limitlessClient =>
      match registerLimitlessTools server with
      | Fulfilled server' =>
          (Fulfilled server',
           [logMessage level_info "Successfully registered all Limitless AI tools"])
      | Rejected e =>
          (Rejected e,
           [logMessage level_error ("Failed to register tools: " ++ error_message e)])
      end
  end.

End Server.

(** How the process started by [main] ends up: serving over the
    transport, or exited with a status. *)
Inductive ProcessOutcome :=
| Serving (server : McpServer)
| Exited (code : Z).

(** What [console.error] is given: a line of text, or the [Fatal error in
    main():] label followed by the thrown value itself. *)
Inductive ConsoleLine :=
| ConsoleText (line : string)
| ConsoleFatal (thrown : Thrown).

Section Main.

Variable trim : string -> string.

(** [process.env.LIMITLESS_API_KEY] and [process.env.LIMITLESS_BASE_URL]. *)
Variable env_LIMITLESS_API_KEY : option string.
Variable env_LIMITLESS_BASE_URL : option string.

(** The test of [z.string().url()], and the [ZodError] that [parse] throws
    when it fails. *)
Variable is_url : string -> bool.
Variable zod_error : Thrown.

(** [server.connect(new StdioServerTransport())]. *)
Variable connect : McpServer -> Settled unit.

(** [LimitlessConfigSchema.parse({ apiKey, baseUrl })] for an [apiKey] read
    from the environment and a [baseUrl] that is a string. *)
Definition LimitlessConfigSchema_parse (apiKey : option string)
    (baseUrl : string) : Settled LimitlessConfig.t :=
  if is_url baseUrl
  then Fulfilled (LimitlessConfig.mk apiKey (Some baseUrl))
  else Rejected zod_error.

(** [main()] with the [catch] attached to it at the end of the file. *)
Definition main : ProcessOutcome * list ConsoleLine :=
  let limitlessApiKey := env_LIMITLESS_API_KEY in
  let limitlessBaseUrl :=
    or_string env_LIMITLESS_BASE_URL "https://api.limitless.ai" in
  let required :=
    if truthy_string limitlessApiKey then []
    else
      [ConsoleText
         "Environment variable LIMITLESS_API_KEY is required. Get your API key from https://www.limitless.ai/developers"] in
  match LimitlessConfigSchema_parse limitlessApiKey limitlessBaseUrl with
  | Rejected e => (Exited 1, (required ++ [ConsoleFatal e])%list)
  | Fulfilled limitlessConfig =>
      match createServer trim env_LIMITLESS_API_KEY limitlessConfig with
      | (Rejected e, lines) =>
          (Exited 1,
           (required ++ map ConsoleText lines ++ [ConsoleFatal e])%list)
      | (Fulfilled server, lines) =>
          match connect server with
          | Fulfilled _ =>
              (Serving server,
               (required ++ map ConsoleText lines ++
                [ConsoleText "[INFO] MCP Server started successfully";
                 ConsoleText "MCP Server running on stdio transport"])%list)
          | Rejected e =>
              (Exited 1,
               (required ++ map ConsoleText lines ++
                [ConsoleText
                   ("[ERROR] Failed to start server: " ++ error_message e)])%list)
          end
      end
  end.

End Main.

(** ** Replies as they arrive

    The types of [types.ts] are static: no reply is checked against them
    when it comes in, and [handleRequest] hands on whatever body Axios
    parsed.  The definitions above take a reply at its declared type; the
    ones below take it as the value it is and follow what the code does
    with it, a read of a property of [undefined] or [null] and a call of
    what is not a function being the [TypeError] they are at run time. *)

#[warnings="-register-all"]
Inductive Json :=
| JsonUndefined
| JsonNull
| JsonBool (b : bool)
| JsonNumber (n : Z)
| JsonString (s : string)
| JsonArray (items : list Json)
| JsonObject (fields : list (string * Json)).

(** The value of the property [key] of an object with these fields. *)
Fixpoint field (key : string) (fields : list (string * Json)) : Json :=
  match fields with
  | [] => JsonUndefined
  | (k, v) :: rest => if k =? key then v else field key rest
  end.

(** Sequencing of steps that return or throw. *)
Definition and_then {A B} (m : Settled A) (k : A -> Settled B) : Settled B :=
  match m with
  | Fulfilled a => k a
  | Rejected e => Rejected e
  end.

Notation "x <-- m ;; k" := (and_then m (fun x => k))
  (at level 61, m at next level, right associativity).

(** A step that returns or throws, as a computation that issues nothing. *)
Definition settle {A} (m : Settled A) : Async A := fun log => (m, log).








(** The object [searchLifelogs] returns: the kept entries and the [meta]
    it read. *)
Definition search_result (lifelogs : list Json) (meta : Json) : Json :=
  JsonObject
    [("data", JsonObject [("lifelogs", JsonArray lifelogs)]);
     ("meta", meta)].

Section Untyped.

Variable toLowerCase : string -> string.

(** The message of the [TypeError] of the engine, by the source text of
    the expression that fails and the value it fails on. *)
Variable type_error : string -> Json -> string.

Variable remote_lifelogs : Remote Json.
Variable remote_lifelog : Remote Json.

Definition TypeError (expression : string) (value : Json) : Thrown :=
  ThrownError (type_error expression value).

Definition is_TypeError (thrown : Thrown) : Prop :=
  exists expression value, thrown = TypeError expression value.

(** [value.prop], where [expression] is the source text of the read. *)
Definition read (expression : string) (value : Json) (prop : string)
    : Settled Json :=
  match value with
  | JsonUndefined | JsonNull => Rejected (TypeError expression value)
  | JsonObject fields => Fulfilled (field prop fields)
  | _ => Fulfilled JsonUndefined
  end.

(** [value.toLowerCase()]. *)
Definition call_toLowerCase (expression : string) (value : Json)
    : Settled string :=
  match value with
  | JsonString s => Fulfilled (toLowerCase s)
  | _ => Rejected (TypeError expression value)
  end.

(** [items.some(cb)]: the items are tried in order up to the first one
    for which [cb] returns [true] or throws. *)
Fixpoint some_untyped (cb : Json -> Settled bool) (items : list Json)
    : Settled bool :=
  match items with
  | [] => Fulfilled false
  | item :: rest =>
      found <-- cb item ;;
      if found then Fulfilled true else some_untyped cb rest
  end.

(** [entries.filter(cb)]: the entries are tried in order up to the first
    one for which [cb] throws. *)
Fixpoint filter_untyped (cb : Json -> Settled bool) (entries : list Json)
    : Settled (list Json) :=
  match entries with
  | [] => Fulfilled []
  | entry :: rest =>
      keep <-- cb entry ;;
      kept <-- filter_untyped cb rest ;;
      Fulfilled (if keep then entry :: kept else kept)
  end.

(** The callback of [some] in [searchLifelogs]. *)
Definition item_matches_untyped (query : string) (item : Json)
    : Settled bool :=
  content <-- read "item.content" item "content" ;;
  lowered <-- call_toLowerCase "item.content.toLowerCase" content ;;
  Fulfilled (JsString.includes lowered query).

(** The callback of [filter] in [searchLifelogs]. *)
Definition entry_matches_untyped (query : string) (entry : Json)
    : Settled bool :=
  title <-- read "entry.title" entry "title" ;;
  lowered <-- call_toLowerCase "entry.title.toLowerCase" title ;;
  if JsString.includes lowered query then Fulfilled true
  else
    markdown <-- read "entry.markdown" entry "markdown" ;;
    in_markdown <--
      match markdown with
      | JsonUndefined | JsonNull => Fulfilled false
      | _ =>
          lowered <--
            call_toLowerCase "entry.markdown?.toLowerCase" markdown ;;
          Fulfilled (JsString.includes lowered query)
      end ;;
    if in_markdown then Fulfilled true
    else
      contents <-- read "entry.contents" entry "contents" ;;
      match contents with
      | JsonArray items => some_untyped (item_matches_untyped query) items
      | _ => Rejected (TypeError "entry.contents.some" contents)
      end.

(** [getLifelogs(params = { limit: 10 })] on the reply as it is. *)
Definition getLifelogs_untyped (this : LimitlessClient)
    (params : option ListLifelogsParams.t) : Async Json :=
  let params :=
    match params with Some p => p | None => default_list_params end in
  handleRequest
    (axios_get remote_lifelogs (api this) "/v1/lifelogs" (Some params)).

(** [getLifelog(lifelogId)] on the reply as it is. *)
Definition getLifelog_untyped (this : LimitlessClient) (lifelogId : string)
    : Async Json :=
  response <-
    handleRequest
      (axios_get remote_lifelog (api this) ("/v1/lifelogs/" ++ lifelogId)
         None) ;;
  settle
    (data <-- read "response.data" response "data" ;;
     read "response.data.lifelog" data "lifelog").

(** What [searchLifelogs] does with the value [getLifelogs] resolved to. *)
Definition filter_reply (query : string) (allEntries : Json) : Settled Json :=
  data <-- read "allEntries.data" allEntries "data" ;;
  lifelogs <-- read "allEntries.data.lifelogs" data "lifelogs" ;;
  filteredEntries <--
    match lifelogs with
    | JsonArray entries =>
        filter_untyped (entry_matches_untyped query) entries
    | _ => Rejected (TypeError "allEntries.data.lifelogs.filter" lifelogs)
    end ;;
  meta <-- read "allEntries.meta" allEntries "meta" ;;
  Fulfilled (search_result filteredEntries meta).

(** [searchLifelogs(params)] on the reply as it is. *)
Definition searchLifelogs_untyped (this : LimitlessClient)
    (params : SearchLifelogsParams.t) : Async Json :=
  allEntries <-
    getLifelogs_untyped this (Some (search_list_params params)) ;;
  settle
    (filter_reply (toLowerCase (SearchLifelogsParams.query params))
       allEntries).

End Untyped.

(** ** A lower-casing with the final sigma

    The lower-casing of the host on strings, held as UTF-8, that are made
    of ASCII letters, digits and spaces and of the Greek letters Α, α, Σ,
    σ and ς.  Α goes to α, and Σ goes to ς when a letter comes before it
    and none comes after it, and to σ otherwise, as the Unicode rule for
    the final sigma has it. *)

Module Greek.

Definition is_ascii_letter (c : ascii) : bool :=
  let n := nat_of_ascii c in
  ((65 <=? n)%nat && (n <=? 90)%nat) || ((97 <=? n)%nat && (n <=? 122)%nat).

(** The two bytes [c d] are the letter [letter]. *)
Definition is_letter (c d : ascii) (letter : string) : bool :=
  String c (String d EmptyString) =? letter.

Definition starts_with_letter (s : string) : bool :=
  match s with
  | EmptyString => false
  | String c rest =>
      is_ascii_letter c ||
      match rest with
      | EmptyString => false
      | String d _ =>
          is_letter c d "Α" || is_letter c d "α" || is_letter c d "Σ" ||
          is_letter c d "σ" || is_letter c d "ς"
      end
  end.

(** Lower-casing of [s], given whether a letter comes just before it. *)
Fixpoint lower_after (letter_before : bool) (s : string) {struct s} : string :=
  match s with
  | EmptyString => EmptyString
  | String c rest =>
      match rest with
      | EmptyString => String (JsString.lower_char c) EmptyString
      | String d rest' =>
          if is_letter c d "Α" then "α" ++ lower_after true rest'
          else if is_letter c d "α" || is_letter c d "σ" || is_letter c d "ς"
          then String c (String d (lower_after true rest'))
          else if is_letter c d "Σ"
          then
            (if letter_before && negb (starts_with_letter rest')
             then "ς" else "σ") ++ lower_after true rest'
          else String (JsString.lower_char c)
                 (lower_after (is_ascii_letter c) rest)
      end
  end.

Definition toLowerCase (s : string) : string := lower_after false s.

End Greek.

(** ** Further fixed inputs *)

Module Fixture.

Definition heading (content : string) : LifelogContentItem.t :=
  LifelogContentItem.mk content heading2 None None None None None.

Definition quote (content : string) (speaker : option string)
    : LifelogContentItem.t :=
  LifelogContentItem.mk content blockquote None None None None speaker.

Definition starred (title : string) : LifelogEntry.t :=
  LifelogEntry.mk "lifelog_2" title "2025-11-05T16:00:00Z"
    "2025-11-05T16:30:00Z" [] None true None.

Definition review : LifelogEntry.t :=
  LifelogEntry.mk "lifelog_3" "Quarterly review" "2025-11-05T09:00:00Z"
    "2025-11-05T10:00:00Z"
    [heading "Budget"; quote "The budget is tight" (Some "Ana");
     quote "Budget cuts next" None; Sample.item "budget, again";
     Sample.item "and budget once more"; Sample.item "Lunch"]
    None false None.

Definition toLocaleString (s : string) : string := s.

Definition today : string := "2025-11-05".

Definition date_after (n : Z) : string :=
  "2025-11-05" ++ string_of_number n.

(** A remote that answers every list request with a page of one plain and
    one starred entry. *)
Definition remote_starred : Remote ListLifelogsResponse.t :=
  fun _ _ =>
    Fulfilled
      (Axios.mkResponse
         (ListLifelogsResponse.mk [Sample.meeting; starred "Launch"] None)
         200).

Definition is_url (s : string) : bool := JsString.startsWith s "http".

Definition connect (_ : McpServer) : Settled unit := Fulfilled tt.

Definition type_error (expression : string) (_ : Json) : string :=
  "TypeError: " ++ expression.



(** A page with one entry, whose title is in lower-case Greek letters. *)
Definition sigma_page : ListLifelogsResponse.t :=
  ListLifelogsResponse.mk [Sample.entry "ασα" [] None] None.

Definition remote_sigma : Remote ListLifelogsResponse.t :=
  fun _ _ => Fulfilled (Axios.mkResponse sigma_page 200).

End Fixture.

(** * Properties *)

(** ** Strings *)

Module JsStringFacts.
Import JsString.

Lemma startsWith_spec (s q : string) :
  startsWith s q = true <-> exists post, s = q ++ post.
Proof.
  revert s; induction q as [|a q IH]; intros s; simpl.
  - split; [intros _; now exists s | reflexivity].
  - destruct s as [|b s].
    + split; [discriminate | intros [post H]; discriminate].
    + rewrite andb_true_iff, Ascii.eqb_eq, IH. split.
      * intros [-> [post ->]]. now exists post.
      * intros [post H]. injection H as -> ->. split; [reflexivity | now exists post].
Qed.

Lemma includes_spec (s q : string) :
  includes s q = true <-> substring_of q s.
Proof.
  unfold substring_of. induction s as [|b s IH].
  - simpl. rewrite orb_false_r, startsWith_spec. split.
    + intros [post H]. now exists EmptyString, post.
    + intros [pre [post H]]. destruct pre; simpl in H.
      * now exists post.
      * discriminate.
  - cbn [includes]. rewrite orb_true_iff, startsWith_spec, IH. split.
    + intros [[post H] | [pre [post H]]].
      * now exists EmptyString, post.
      * exists (String b pre), post. simpl. now rewrite H.
    + intros [pre [post H]]. destruct pre as [|c pre]; simpl in H.
      * left. now exists post.
      * right. injection H as _ H. now exists pre, post.
Qed.

Lemma includes_empty (s : string) : includes s "" = true.
Proof. destruct s; reflexivity. Qed.

Lemma lower_char_idem (c : ascii) : lower_char (lower_char c) = lower_char c.
Proof.
  destruct c as [[] [] [] [] [] [] [] []]; reflexivity.
Qed.

Lemma case_variant_toLowerCase (s t : string) :
  case_variant s t -> toLowerCase s = toLowerCase t.
Proof.
  induction 1 as [| c s t _ IH | c s t _ _ IH | c s t _ _ IH]; simpl;
    rewrite ?lower_char_idem; congruence.
Qed.

Lemma case_variant_refl (s : string) : case_variant s s.
Proof. induction s; constructor; assumption. Qed.

Lemma case_variant_sym (s t : string) :
  case_variant s t -> case_variant t s.
Proof. induction 1; constructor; assumption. Qed.

Example meeting_case_variant : case_variant "MEETING" "meeting".
Proof.
  repeat match goal with
         | |- case_variant (String ?c ?s) (String _ ?t) =>
             refine (@cv_lower c s t eq_refl _)
         | |- case_variant EmptyString EmptyString => exact cv_nil
         end.
Qed.

End JsStringFacts.

(** ** Lists *)

Lemma filter_Subseq {A : Type} (f : A -> bool) (l : list A) :
Subseq (filter f l) l.
Proof.
induction l as [|x l IH]; simpl.
- constructor.
- destruct (f x); constructor; assumption.
Qed.

Lemma filter_none {A : Type} (f : A -> bool) (l : list A) :
(forall x, In x l -> f x = false) -> filter f l = [].
Proof.
induction l as [|x l IH]; simpl; intros H.
- reflexivity.
- rewrite (H x (or_introl eq_refl)). apply IH. intros y Hy. apply H. now right.
Qed.

(** ** The request path *)

Section ClientFacts.

Variable toLowerCase : string -> string.
Variable remote_lifelogs : Remote ListLifelogsResponse.t.


Lemma handleRequest_run {T} (request : Async (Axios.Response T)) log :
  handleRequest request log =
  match request log with
  | (Fulfilled r, log') => (Fulfilled (Axios.data r), log')
  | (Rejected e, log') => (Rejected (ThrownError (rewrapped e)), log')
  end.
Proof.
  unfold handleRequest, try_catch, bind, ret, throw.
  destruct (request log) as [[r | e] log']; [reflexivity |].
  destruct e; reflexivity.
Qed.

(** [getLifelogs] issues exactly one request, carrying [params] as
    given, and settles as the remote does. *)
Lemma getLifelogs_run this params log :
  getLifelogs remote_lifelogs this (Some params) log =
  let r := Axios.mkRequest (api this) "/v1/lifelogs" (Some params) in
  (match remote_lifelogs log r with
   | Fulfilled resp => Fulfilled (Axios.data resp)
   | Rejected e => Rejected (ThrownError (rewrapped e))
   end, (log ++ [r])%list).
Proof.
  unfold getLifelogs. rewrite handleRequest_run. unfold axios_get.
  cbv zeta. destruct (remote_lifelogs _ _); reflexivity.
Qed.

(** [searchLifelogs] is the fetch followed by the filter. *)
Lemma searchLifelogs_run this params log :
  searchLifelogs toLowerCase remote_lifelogs this params log =
  match getLifelogs remote_lifelogs this (Some (search_list_params params)) log with
  | (Fulfilled allEntries, log') =>
      (Fulfilled
         (ListLifelogsResponse.mk
            (filter
               (entry_matches toLowerCase (toLowerCase (SearchLifelogsParams.query params)))
               (ListLifelogsResponse.data_lifelogs allEntries))
            (ListLifelogsResponse.meta allEntries)),
       log')
  | (Rejected e, log') => (Rejected e, log')
  end.
Proof. reflexivity. Qed.

(** The filter callback, clause by clause. *)
Lemma entry_matches_true_iff query entry :
  entry_matches toLowerCase query entry = true <->
  JsString.substring_of query (toLowerCase (LifelogEntry.title entry)) \/
  (exists markdown,
      LifelogEntry.markdown entry = Some markdown /\
      JsString.substring_of query (toLowerCase markdown)) \/
  (exists item,
      In item (LifelogEntry.contents entry) /\
      JsString.substring_of query
        (toLowerCase (LifelogContentItem.content item))).
Proof.
  unfold entry_matches.
  rewrite <- JsStringFacts.includes_spec.
  destruct (JsString.includes (toLowerCase (LifelogEntry.title entry)) query).
  { split; auto. }
  destruct (LifelogEntry.markdown entry) as [markdown|].
  - destruct (JsString.includes (toLowerCase markdown) query) eqn:Hmd.
    + split; auto. intros _. right; left. exists markdown.
      now rewrite <- JsStringFacts.includes_spec.
    + rewrite existsb_exists. split.
      * intros [item [Hin Hitem]]. right; right. exists item.
        now rewrite <- JsStringFacts.includes_spec.
      * intros [H | [[m [Hm Hsub]] | [item [Hin Hsub]]]].
        -- discriminate.
        -- injection Hm as <-.
           rewrite <- JsStringFacts.includes_spec in Hsub. congruence.
        -- exists item. now rewrite JsStringFacts.includes_spec.
  - rewrite existsb_exists. split.
    + intros [item [Hin Hitem]]. right; right. exists item.
      now rewrite <- JsStringFacts.includes_spec.
    + intros [H | [[m [Hm _]] | [item [Hin Hsub]]]].
      * discriminate.
      * discriminate.
      * exists item. now rewrite JsStringFacts.includes_spec.
Qed.

(** C1.  When the fetch returns a page, [searchLifelogs] returns a page
    too, and an entry is in it exactly when it is in the fetched page
    and the lower-cased query is a substring of its lower-cased title,
    or of its lower-cased markdown when it has one, or of the
    lower-cased content of one of its content items.  Nothing but
    substring containment takes part. *)
Theorem searchLifelogs_matches_by_substring this params log page log' :
  getLifelogs remote_lifelogs this (Some (search_list_params params)) log
    = (Fulfilled page, log') ->
  exists result,
    searchLifelogs toLowerCase remote_lifelogs this params log = (Fulfilled result, log') /\
    forall entry,
      In entry (ListLifelogsResponse.data_lifelogs result) <->
      In entry (ListLifelogsResponse.data_lifelogs page) /\
      let query := toLowerCase (SearchLifelogsParams.query params) in
      (JsString.substring_of query (toLowerCase (LifelogEntry.title entry)) \/
       (exists markdown,
           LifelogEntry.markdown entry = Some markdown /\
           JsString.substring_of query (toLowerCase markdown)) \/
       (exists item,
           In item (LifelogEntry.contents entry) /\
           JsString.substring_of query
             (toLowerCase (LifelogContentItem.content item)))).
Proof.
  intros Hfetch. rewrite searchLifelogs_run, Hfetch.
  eexists; split; [reflexivity |].
  intros entry. cbn [ListLifelogsResponse.data_lifelogs].
  rewrite filter_In, entry_matches_true_iff. reflexivity.
Qed.

(** C2.  The one request [searchLifelogs] issues is the list request whose
    [date] is [date_from], whose [cursor] and [limit] are the given ones
    and which carries no other filter; replacing [date_to] and [timezone]
    by any other values changes neither the request nor the outcome. *)
Theorem searchLifelogs_fetch_params this params log :
  snd (searchLifelogs toLowerCase remote_lifelogs this params log) =
    (log ++
     [Axios.mkRequest (api this) "/v1/lifelogs"
        (Some (ListLifelogsParams.mk
                 (SearchLifelogsParams.date_from params)
                 None None None
                 (SearchLifelogsParams.cursor params)
                 None
                 (SearchLifelogsParams.limit params)))])%list
  /\
  forall date_to timezone,
    searchLifelogs toLowerCase remote_lifelogs this
      (SearchLifelogsParams.mk
         (SearchLifelogsParams.query params)
         (SearchLifelogsParams.date_from params)
         date_to timezone
         (SearchLifelogsParams.cursor params)
         (SearchLifelogsParams.limit params)) log
    = searchLifelogs toLowerCase remote_lifelogs this params log.
Proof.
  split.
  - rewrite searchLifelogs_run, getLifelogs_run. cbv zeta.
    unfold search_list_params.
    destruct (remote_lifelogs _ _); reflexivity.
  - intros date_to timezone. reflexivity.
Qed.

(** C3.  When the fetch returns a page, the page [searchLifelogs] returns
    holds the matching entries of the fetched page in the order they had
    there, and its [meta] is that of the fetched page, whatever the number
    of matches. *)
Theorem searchLifelogs_keeps_order_and_meta this params log page log' :
  getLifelogs remote_lifelogs this (Some (search_list_params params)) log
    = (Fulfilled page, log') ->
  exists result,
    searchLifelogs toLowerCase remote_lifelogs this params log = (Fulfilled result, log') /\
    ListLifelogsResponse.data_lifelogs result =
      filter (entry_matches toLowerCase (toLowerCase (SearchLifelogsParams.query params)))
        (ListLifelogsResponse.data_lifelogs page) /\
    Subseq (ListLifelogsResponse.data_lifelogs result)
      (ListLifelogsResponse.data_lifelogs page) /\
    ListLifelogsResponse.meta result = ListLifelogsResponse.meta page.
Proof.
  intros Hfetch. rewrite searchLifelogs_run, Hfetch.
  eexists; split; [reflexivity |].
  cbn [ListLifelogsResponse.data_lifelogs ListLifelogsResponse.meta].
  repeat split. apply filter_Subseq.
Qed.

(** The query takes part in a search through its lower-casing only: two
    searches that differ only in their query strings, the two strings
    having the same lower-casing, settle alike from the same log. *)
Lemma searchLifelogs_same_lowering this q1 q2 date_from date_to timezone
    cursor limit log :
  toLowerCase q1 = toLowerCase q2 ->
  searchLifelogs toLowerCase remote_lifelogs this
    (SearchLifelogsParams.mk q1 date_from date_to timezone cursor limit) log
  = searchLifelogs toLowerCase remote_lifelogs this
      (SearchLifelogsParams.mk q2 date_from date_to timezone cursor limit) log.
Proof.
  intros Hcase. rewrite !searchLifelogs_run.
  unfold search_list_params. cbn [SearchLifelogsParams.query
    SearchLifelogsParams.date_from SearchLifelogsParams.cursor
    SearchLifelogsParams.limit].
  now rewrite Hcase.
Qed.

(** C10.  For an entry without [markdown], the filter callback is the
    disjunction of the title test and the content-item test: it returns
    [true] exactly when the query is a substring of the lower-cased title
    or of the lower-cased content of one of the items. *)
Theorem entry_matches_without_markdown query entry :
  LifelogEntry.markdown entry = None ->
  entry_matches toLowerCase query entry =
    JsString.includes (toLowerCase (LifelogEntry.title entry)) query ||
    existsb
      (fun item =>
         JsString.includes (toLowerCase (LifelogContentItem.content item))
           query)
      (LifelogEntry.contents entry)
  /\
  (entry_matches toLowerCase query entry = true <->
   JsString.substring_of query (toLowerCase (LifelogEntry.title entry)) \/
   exists item,
     In item (LifelogEntry.contents entry) /\
     JsString.substring_of query
       (toLowerCase (LifelogContentItem.content item))).
Proof.
  intros Hmd. split.
  - unfold entry_matches. rewrite Hmd.
    destruct (JsString.includes _ query); reflexivity.
  - rewrite entry_matches_true_iff, Hmd. split.
    + intros [H | [[m [Hm _]] | H]]; [now left | discriminate | now right].
    + intros [H | H]; [now left | now right; right].
Qed.

End ClientFacts.

(** ** Errors of the request path *)

Section ErrorFacts.

Variable T : Type.
Variable request : Async (Axios.Response T).

(** C8, as the code has it.  When the request is rejected, [handleRequest]
    is rejected with a fresh [Error] and issues nothing more.  For an
    Axios error its text is [Limitless API error (status): message], where
    [status] is the status of the reply when there is a reply and its
    status is not zero, and [unknown] otherwise, and [message] is the
    [message] field of the reply's body when that field is there and is
    not the empty string, and the transport's own message otherwise.  For
    any other thrown value the text is [Limitless API error: ] followed by
    the message of the error, or by the rendering of a value that is not
    an error. *)
Theorem handleRequest_rewraps log e log' :
  request log = (Rejected e, log') ->
  exists text,
    handleRequest request log = (Rejected (ThrownError text), log') /\
    match e with
    | ThrownAxios error =>
        exists status message,
          text = "Limitless API error (" ++ status ++ "): " ++ message /\
          (forall r,
              Axios.response error = Some r ->
              Axios.err_status r <> 0%Z ->
              status = string_of_number (Axios.err_status r)) /\
          ((forall r,
               Axios.response error = Some r -> Axios.err_status r = 0%Z) ->
           status = "unknown") /\
          (forall r body m,
              Axios.response error = Some r ->
              Axios.err_data r = Some body ->
              LimitlessError.message body = Some m ->
              m <> "" ->
              message = m) /\
          ((forall r body m,
               Axios.response error = Some r ->
               Axios.err_data r = Some body ->
               LimitlessError.message body = Some m ->
               m = "") ->
           message = Axios.message error)
    | ThrownError m | ThrownMcp _ m => text = "Limitless API error: " ++ m
    | ThrownValue s => text = "Limitless API error: " ++ s
    end.
Proof.
  intros Hreq. rewrite handleRequest_run, Hreq.
  eexists; split; [reflexivity |].
  destruct e as [error | m | code m | s]; try reflexivity.
  exists (response_status error),
    (or_string (response_data_message error) (Axios.message error)).
  split; [reflexivity |].
  unfold response_status, response_data_message.
  destruct (Axios.response error) as [r|].
  - repeat split.
    + intros r' Hr' Hnz. injection Hr' as <-.
      destruct (Z.eqb_spec (Axios.err_status r) 0); [contradiction | reflexivity].
    + intros Hzero. rewrite (Hzero r eq_refl). reflexivity.
    + intros r' body m Hr' Hbody Hm Hne. injection Hr' as <-.
      rewrite Hbody, Hm. simpl.
      destruct (String.eqb_spec m ""); [contradiction | reflexivity].
    + intros Hempty.
      destruct (Axios.err_data r) as [body|] eqn:Hbody; [| reflexivity].
      destruct (LimitlessError.message body) as [m|] eqn:Hm; [| reflexivity].
      rewrite (Hempty r body m eq_refl Hbody Hm). reflexivity.
  - repeat split; intros; try discriminate; reflexivity.
Qed.

End ErrorFacts.

(** ** The constructor *)

Section ConstructorFacts.

Variable trim : string -> string.

Lemma new_LimitlessClient_key env config client :
  new_LimitlessClient trim env config = Fulfilled client ->
  Axios.X_API_Key (api client) <> "" /\
  (LimitlessConfig.apiKey config = Some (Axios.X_API_Key (api client)) \/
   env = Some (Axios.X_API_Key (api client))).
Proof.
  unfold new_LimitlessClient, or_string_opt, truthy_string.
  destruct (LimitlessConfig.apiKey config) as [k|].
  - destruct (String.eqb_spec k ""); simpl.
    + destruct env as [k'|]; [| discriminate].
      destruct (String.eqb_spec k' ""); simpl; [discriminate |].
      destruct (trim k' =? ""); [discriminate |].
      intros H; injection H as <-. simpl. auto.
    + destruct (String.eqb_spec k ""); [contradiction |]. simpl.
      destruct (trim k =? ""); [discriminate |].
      intros H; injection H as <-. simpl. auto.
  - simpl. destruct env as [k'|]; [| discriminate].
    destruct (String.eqb_spec k' ""); simpl; [discriminate |].
    destruct (trim k' =? ""); [discriminate |].
    intros H; injection H as <-. simpl. auto.
Qed.

(** C9.  With the credential of the configuration missing or empty and the
    environment variable missing or empty, the constructor throws the
    [API key is required] error, so no client and no Axios instance come
    to exist; and a client that any construction does return sends a key
    that is not empty. *)
Theorem new_LimitlessClient_requires_credential env config :
  absent_credential (LimitlessConfig.apiKey config) ->
  absent_credential env ->
  new_LimitlessClient trim env config
    = Rejected (ThrownError api_key_required)
  /\
  forall env' config' client,
    new_LimitlessClient trim env' config' = Fulfilled client ->
    Axios.X_API_Key (api client) <> "".
Proof.
  intros Hconfig Henv. split.
  - unfold new_LimitlessClient.
    destruct Hconfig as [-> | ->], Henv as [-> | ->]; reflexivity.
  - intros env' config' client H.
    exact (proj1 (new_LimitlessClient_key _ _ H)).
Qed.

End ConstructorFacts.

(** ** The tools *)

Lemma limit_schema_number (n : Z) :
  limit_schema (JNumber n) =
  if ((1 <=? n) && (n <=? 10))%Z then Some n else None.
Proof.
  unfold limit_schema, z_default, z_optional, z_max, z_min, z_number.
  simpl. destruct (1 <=? n)%Z; simpl; [| reflexivity].
  destruct (n <=? 10)%Z; reflexivity.
Qed.

Lemma getLifelogs_schema_limit args params :
  getLifelogs_schema args = Some params ->
  limit_schema (get_arg "limit" args) = Some (ListLifelogsParams.limit params).
Proof.
  unfold getLifelogs_schema.
  destruct (z_optional z_string (get_arg "date" args)); [| discriminate].
  destruct (z_optional z_string (get_arg "timezone" args)); [| discriminate].
  destruct (z_optional z_string (get_arg "start_time" args)); [| discriminate].
  destruct (z_optional z_string (get_arg "end_time" args)); [| discriminate].
  destruct (z_optional z_string (get_arg "cursor" args)); [| discriminate].
  destruct (z_optional _ (get_arg "sort_direction" args)); [| discriminate].
  destruct (limit_schema (get_arg "limit" args)); [| discriminate].
  intros H; injection H as <-. reflexivity.
Qed.

Lemma getLifelogEntry_schema_nonempty args :
  getLifelogEntry_schema args =
  match get_arg "lifelog_id" args with
  | JString s => if s =? "" then None else Some s
  | _ => None
  end.
Proof.
  unfold getLifelogEntry_schema, z_min_length, z_string.
  destruct (get_arg "lifelog_id" args) as [| | b | n | s]; try reflexivity.
  destruct s; reflexivity.
Qed.

Lemma callTool_refuses {P} refusal name (inputSchema : Args -> option P)
    (cb : P -> Async string) args log :
  inputSchema args = None ->
  callTool refusal name inputSchema cb args log = (refusal name args, log).
Proof. intros Hnone. unfold callTool. now rewrite Hnone. Qed.

Lemma callTool_accepts {P} refusal name (inputSchema : Args -> option P)
    (cb : P -> Async string) args p log :
  inputSchema args = Some p ->
  callTool refusal name inputSchema cb args log =
  match cb p log with
  | (Fulfilled answer, log') =>
      (Fulfilled (mkCallToolResult answer false), log')
  | (Rejected e, log') =>
      (Fulfilled (mkCallToolResult (thrown_text e) true), log')
  end.
Proof.
  intros Hsome. unfold callTool. rewrite Hsome.
  unfold try_catch, bind, ret.
  destruct (cb p log) as [[answer | e] log']; reflexivity.
Qed.

Section ToolFacts.

Variable remote_lifelogs : Remote ListLifelogsResponse.t.
Variable remote_lifelog : Remote GetLifelogResponse.t.
Variable format_lifelogs :
  ListLifelogsParams.t -> ListLifelogsResponse.t -> string.
Variable format_entry : LifelogEntry.t -> string.
Variable sdk_refusal : string -> Args -> Settled CallToolResult.

(** Every run of the [getLifelogs] tool on arguments that its schema
    accepts issues the one list request that carries the parsed
    arguments. *)
Lemma getLifelogs_tool_request this args params log :
  getLifelogs_schema args = Some params ->
  snd (getLifelogs_tool remote_lifelogs format_lifelogs sdk_refusal this
         args log) =
    (log ++ [Axios.mkRequest (api this) "/v1/lifelogs" (Some params)])%list.
Proof.
  intros Hparse.
  unfold getLifelogs_tool. erewrite callTool_accepts by exact Hparse.
  unfold bind. rewrite getLifelogs_run. cbv zeta.
  destruct (remote_lifelogs _ _) as [resp | e]; [| reflexivity].
  destruct (ListLifelogsResponse.data_lifelogs (Axios.data resp)); reflexivity.
Qed.

(** C4, as the code has it.  The range of [limit] is checked by the input
    schema of the [getLifelogs] tool.  A tool call whose [limit] is a
    number below 1 or above 10 is refused by that schema: the handler does
    not run, the log of requests is left as it was, and the call is
    answered with the refusal of the SDK.  A [limit] from 1 to 10 is
    accepted by the limit schema as the very number given, and whenever
    the arguments are accepted the one request issued carries that number
    as its limit.  The method [getLifelogs] of the client checks nothing:
    it issues the request with whatever parameters it is given. *)
Theorem getLifelogs_tool_limit this args n log :
  get_arg "limit" args = JNumber n ->
  ((n < 1 \/ 10 < n)%Z ->
   getLifelogs_schema args = None /\
   getLifelogs_tool remote_lifelogs format_lifelogs sdk_refusal this args log
     = (sdk_refusal "getLifelogs" args, log))
  /\
  ((1 <= n <= 10)%Z ->
   limit_schema (JNumber n) = Some n /\
   forall params,
     getLifelogs_schema args = Some params ->
     ListLifelogsParams.limit params = n /\
     snd (getLifelogs_tool remote_lifelogs format_lifelogs sdk_refusal this
            args log) =
       (log ++ [Axios.mkRequest (api this) "/v1/lifelogs" (Some params)])%list)
  /\
  (forall params log0,
      snd (getLifelogs remote_lifelogs this (Some params) log0) =
        (log0 ++
         [Axios.mkRequest (api this) "/v1/lifelogs" (Some params)])%list).
Proof.
  intros Hlimit. split; [| split].
  - intros Hout.
    assert (Hnone : getLifelogs_schema args = None).
    { destruct (getLifelogs_schema args) as [params|] eqn:Hparse;
        [| reflexivity].
      apply getLifelogs_schema_limit in Hparse.
      rewrite Hlimit, limit_schema_number in Hparse.
      destruct (Z.leb_spec 1 n), (Z.leb_spec n 10); simpl in Hparse;
        try discriminate; lia. }
    split; [exact Hnone |].
    unfold getLifelogs_tool. now apply callTool_refuses.
  - intros [Hlo Hhi]. split.
    + rewrite limit_schema_number.
      destruct (Z.leb_spec 1 n), (Z.leb_spec n 10); simpl;
        try reflexivity; lia.
    + intros params Hparse. split.
      * pose proof (getLifelogs_schema_limit _ Hparse) as H.
        rewrite Hlimit, limit_schema_number in H.
        destruct ((1 <=? n) && (n <=? 10))%Z; [| discriminate].
        now injection H.
      * now apply getLifelogs_tool_request.
  - intros params log0. rewrite getLifelogs_run. reflexivity.
Qed.

(** C7, as the code has it.  The id is checked by the input schema of the
    [getLifelogEntry] tool.  A tool call whose [lifelog_id] is the empty
    string, or is missing, or is not a string, is refused by that schema:
    the handler does not run, the log of requests is left as it was, and
    the call is answered with the refusal of the SDK.  The method
    [getLifelog] of the client checks nothing: for every id, the empty one
    included, it requests [/v1/lifelogs/] followed by the id. *)
Theorem getLifelogEntry_tool_requires_id this args log :
  is_nonempty_string (get_arg "lifelog_id" args) = false ->
  getLifelogEntry_schema args = None /\
  getLifelogEntry_tool remote_lifelog format_entry sdk_refusal this args log
    = (sdk_refusal "getLifelogEntry" args, log) /\
  (forall lifelogId log0,
      snd (getLifelog remote_lifelog this lifelogId log0) =
        (log0 ++
         [Axios.mkRequest (api this) ("/v1/lifelogs/" ++ lifelogId) None])%list).
Proof.
  intros Hid.
  assert (Hnone : getLifelogEntry_schema args = None).
  { rewrite getLifelogEntry_schema_nonempty.
    destruct (get_arg "lifelog_id" args) as [| | b | k | s]; try reflexivity.
    simpl in Hid. destruct (s =? ""); [reflexivity | discriminate]. }
  split; [exact Hnone |]. split.
  - unfold getLifelogEntry_tool. now apply callTool_refuses.
  - intros lifelogId log0.
    unfold getLifelog, bind. rewrite handleRequest_run. unfold axios_get.
    destruct (remote_lifelog _ _); reflexivity.
Qed.

(** With an id of at least one code unit the tool does call the API, at
    the path of that id. *)
Lemma getLifelogEntry_tool_request this args s log :
  get_arg "lifelog_id" args = JString s ->
  s <> "" ->
  snd (getLifelogEntry_tool remote_lifelog format_entry sdk_refusal this
         args log) =
    (log ++ [Axios.mkRequest (api this) ("/v1/lifelogs/" ++ s) None])%list.
Proof.
  intros Hid Hne.
  assert (Hsome : getLifelogEntry_schema args = Some s).
  { rewrite getLifelogEntry_schema_nonempty, Hid.
    destruct (String.eqb_spec s ""); [contradiction | reflexivity]. }
  unfold getLifelogEntry_tool. erewrite callTool_accepts by exact Hsome.
  unfold getLifelog, bind. rewrite handleRequest_run. unfold axios_get.
  destruct (remote_lifelog _ _); reflexivity.
Qed.

End ToolFacts.

(** ** The statements on fixed inputs *)

Lemma searchLifelogs_matches_by_substring_witness :
  getLifelogs Sample.remote_page Sample.client
    (Some (search_list_params (Sample.search "meeting"))) []
    = (Fulfilled Sample.page, Sample.search_log (Sample.search "meeting"))
  /\
  exists result,
    searchLifelogs JsString.toLowerCase Sample.remote_page Sample.client
      (Sample.search "meeting") []
      = (Fulfilled result, Sample.search_log (Sample.search "meeting")) /\
    In Sample.meeting (ListLifelogsResponse.data_lifelogs result) /\
    In Sample.standup (ListLifelogsResponse.data_lifelogs result) /\
    ~ In Sample.grocery (ListLifelogsResponse.data_lifelogs result).
Proof.
  split; [reflexivity |].
  destruct (@searchLifelogs_matches_by_substring JsString.toLowerCase
              Sample.remote_page Sample.client (Sample.search "meeting") []
              Sample.page (Sample.search_log (Sample.search "meeting"))
              eq_refl) as [result [Hrun Hiff]].
  exists result. split; [exact Hrun |].
  repeat split.
  - apply Hiff. split; [simpl; auto |].
    left. apply JsStringFacts.includes_spec. reflexivity.
  - apply Hiff. split; [simpl; auto |].
    right; right. exists (Sample.item "Next MEETING is on Friday").
    split; [simpl; auto |]. apply JsStringFacts.includes_spec. reflexivity.
  - intros Hin. apply Hiff in Hin. destruct Hin as [_ Hmatch].
    apply (proj2 (entry_matches_true_iff JsString.toLowerCase _ _)) in Hmatch.
    discriminate Hmatch.
Defined.

Lemma searchLifelogs_keeps_order_and_meta_witness :
  exists result,
    searchLifelogs JsString.toLowerCase Sample.remote_page Sample.client
      (Sample.search "meeting") []
      = (Fulfilled result, Sample.search_log (Sample.search "meeting")) /\
    ListLifelogsResponse.data_lifelogs result
      = [Sample.meeting; Sample.standup] /\
    Subseq (ListLifelogsResponse.data_lifelogs result)
      [Sample.meeting; Sample.grocery; Sample.standup] /\
    ListLifelogsResponse.meta result = Some {| meta_lifelogs_count := 3 |}.
Proof.
  destruct (@searchLifelogs_keeps_order_and_meta JsString.toLowerCase
              Sample.remote_page Sample.client (Sample.search "meeting") []
              Sample.page (Sample.search_log (Sample.search "meeting"))
              eq_refl) as [result [Hrun [Hfilter [Hsub Hmeta]]]].
  exists result. repeat split; assumption.
Defined.

Lemma searchLifelogs_same_lowering_witness :
  JsString.toLowerCase "MEETING" = JsString.toLowerCase "meeting" /\
  searchLifelogs JsString.toLowerCase Sample.remote_page Sample.client
    (Sample.search "MEETING") []
  = searchLifelogs JsString.toLowerCase Sample.remote_page Sample.client
      (Sample.search "meeting") [].
Proof.
  split; [reflexivity |].
  exact (@searchLifelogs_same_lowering JsString.toLowerCase
           Sample.remote_page Sample.client "MEETING" "meeting"
           (Some "2025-11-05") None None None 10%Z [] eq_refl).
Defined.

Lemma entry_matches_without_markdown_witness :
  LifelogEntry.markdown Sample.standup = None /\
  entry_matches JsString.toLowerCase "meeting" Sample.standup = true /\
  entry_matches JsString.toLowerCase "grocery" Sample.standup = false.
Proof.
  split; [reflexivity |]. split.
  - rewrite (proj1 (@entry_matches_without_markdown JsString.toLowerCase
                      "meeting" Sample.standup eq_refl)).
    reflexivity.
  - rewrite (proj1 (@entry_matches_without_markdown JsString.toLowerCase
                      "grocery" Sample.standup eq_refl)).
    reflexivity.
Defined.

Lemma getLifelogs_tool_limit_witness :
  getLifelogs_tool Sample.remote_page Sample.format_lifelogs
    Sample.sdk_refusal Sample.client [("limit", JNumber 0)] []
  = (Sample.sdk_refusal "getLifelogs" [("limit", JNumber 0)], [])
  /\
  getLifelogs_tool Sample.remote_page Sample.format_lifelogs
    Sample.sdk_refusal Sample.client
    [("date", JString "2025-11-05"); ("limit", JNumber 11)] []
  = (Sample.sdk_refusal "getLifelogs"
       [("date", JString "2025-11-05"); ("limit", JNumber 11)], [])
  /\
  snd (getLifelogs_tool Sample.remote_page Sample.format_lifelogs
         Sample.sdk_refusal Sample.client [("limit", JNumber 7)] [])
  = [Axios.mkRequest (api Sample.client) "/v1/lifelogs"
       (Some (ListLifelogsParams.mk None None None None None None 7))].
Proof.
  split; [| split].
  - apply (proj1 (@getLifelogs_tool_limit Sample.remote_page
                    Sample.format_lifelogs Sample.sdk_refusal Sample.client
                    [("limit", JNumber 0)] 0%Z [] eq_refl)).
    lia.
  - apply (proj1 (@getLifelogs_tool_limit Sample.remote_page
                    Sample.format_lifelogs Sample.sdk_refusal Sample.client
                    [("date", JString "2025-11-05"); ("limit", JNumber 11)]
                    11%Z [] eq_refl)).
    lia.
  - assert (Hrange : (1 <= 7 <= 10)%Z) by lia.
    destruct (proj1 (proj2 (@getLifelogs_tool_limit Sample.remote_page
                              Sample.format_lifelogs Sample.sdk_refusal
                              Sample.client [("limit", JNumber 7)] 7%Z []
                              eq_refl)) Hrange)
      as [_ Hsent].
    exact (proj2 (Hsent _ eq_refl)).
Defined.

(** C4, as it is worded, at the limit 0: the list-entries call of the
    client is not rejected, and its request goes out with the limit 0. *)
Lemma getLifelogs_sends_limit_zero :
  getLifelogs Sample.remote_page Sample.client
    (Some (ListLifelogsParams.mk None None None None None None 0)) []
  = (Fulfilled Sample.page,
     [Axios.mkRequest (api Sample.client) "/v1/lifelogs"
        (Some (ListLifelogsParams.mk None None None None None None 0))]).
Proof. reflexivity. Qed.

Lemma getLifelogEntry_tool_requires_id_witness :
  is_nonempty_string (get_arg "lifelog_id" [("lifelog_id", JString "")])
    = false
  /\
  getLifelogEntry_tool Sample.remote_entry Sample.format_entry
    Sample.sdk_refusal Sample.client [("lifelog_id", JString "")] []
  = (Sample.sdk_refusal "getLifelogEntry" [("lifelog_id", JString "")], []).
Proof.
  split; [reflexivity |].
  exact (proj1 (proj2 (@getLifelogEntry_tool_requires_id Sample.remote_entry
                         Sample.format_entry Sample.sdk_refusal Sample.client
                         [("lifelog_id", JString "")] [] eq_refl))).
Defined.

(** C7, as it is worded, at the empty id: the get-entry-by-id call of the
    client does not fail, and it requests [/v1/lifelogs/]. *)
Lemma getLifelog_requests_empty_id :
  getLifelog Sample.remote_entry Sample.client "" []
  = (Fulfilled Sample.meeting,
     [Axios.mkRequest (api Sample.client) "/v1/lifelogs/" None]).
Proof. reflexivity. Qed.

Lemma new_LimitlessClient_requires_credential_witness :
  new_LimitlessClient JsString.trim None (LimitlessConfig.mk (Some "") None)
    = Rejected (ThrownError api_key_required)
  /\
  new_LimitlessClient JsString.trim (Some "") (LimitlessConfig.mk None None)
    = Rejected (ThrownError api_key_required).
Proof.
  split.
  - apply (@new_LimitlessClient_requires_credential JsString.trim None
             (LimitlessConfig.mk (Some "") None)).
    + right; reflexivity.
    + left; reflexivity.
  - apply (@new_LimitlessClient_requires_credential JsString.trim (Some "")
             (LimitlessConfig.mk None None)).
    + left; reflexivity.
    + right; reflexivity.
Defined.

Lemma handleRequest_rewraps_witness :
  handleRequest
    (Sample.list_request
       (Sample.remote_failing (ThrownAxios Sample.error_not_found))) []
  = (Rejected (ThrownError "Limitless API error (404): Lifelog not found"),
     [Axios.mkRequest (api Sample.client) "/v1/lifelogs"
        (Some default_list_params)])
  /\
  handleRequest
    (Sample.list_request
       (Sample.remote_failing (ThrownAxios Sample.error_network))) []
  = (Rejected
       (ThrownError "Limitless API error (unknown): connect ECONNREFUSED"),
     [Axios.mkRequest (api Sample.client) "/v1/lifelogs"
        (Some default_list_params)]).
Proof.
  split.
  - destruct (@handleRequest_rewraps _
                (Sample.list_request
                   (Sample.remote_failing (ThrownAxios Sample.error_not_found)))
                [] _ _ eq_refl)
      as [text [Hrun [status [message [Htext [Hst [_ [Hmsg _]]]]]]]].
    rewrite Hrun, Htext.
    rewrite (Hst _ eq_refl ltac:(discriminate)).
    rewrite (Hmsg _ _ _ eq_refl eq_refl eq_refl ltac:(discriminate)).
    reflexivity.
  - destruct (@handleRequest_rewraps _
                (Sample.list_request
                   (Sample.remote_failing (ThrownAxios Sample.error_network)))
                [] _ _ eq_refl)
      as [text [Hrun [status [message [Htext [_ [Hst [_ Hmsg]]]]]]]].
    rewrite Hrun, Htext.
    rewrite Hst by (intros r Hr; discriminate Hr).
    rewrite Hmsg by (intros r body m Hr; discriminate Hr).
    reflexivity.
Defined.

(** C8, as it is worded, at a reply whose body has an empty [message]:
    the field is there, and the text thrown ends with the transport's
    message, not with the field. *)
Lemma handleRequest_empty_body_message :
  response_data_message Sample.error_empty_message = Some "" /\
  fst (getLifelogs
         (Sample.remote_failing (ThrownAxios Sample.error_empty_message))
         Sample.client (Some default_list_params) [])
  = Rejected
      (ThrownError
         "Limitless API error (500): Request failed with status code 500") /\
  fst (getLifelogs
         (Sample.remote_failing (ThrownAxios Sample.error_empty_message))
         Sample.client (Some default_list_params) [])
  <> Rejected (ThrownError ("Limitless API error (500): " ++ "")).
Proof.
  split; [reflexivity |]. split; [reflexivity |].
  intros H. discriminate H.
Qed.

(** ** Where the checks sit

    The range of [limit] and the non-emptiness of [lifelog_id] are checked
    by the input schemas of the tools.  The methods of the client forward
    what they are given: [getLifelogs] sends its parameters unchanged and
    [getLifelog] requests the path of whatever id it receives. *)

Lemma getLifelogs_sends_params_as_given
    (remote : Remote ListLifelogsResponse.t) this params log :
  snd (getLifelogs remote this (Some params) log) =
    (log ++ [Axios.mkRequest (api this) "/v1/lifelogs" (Some params)])%list.
Proof. rewrite getLifelogs_run. reflexivity. Qed.

Lemma getLifelog_requests_any_id
    (remote : Remote GetLifelogResponse.t) this lifelogId log :
  snd (getLifelog remote this lifelogId log) =
    (log ++
     [Axios.mkRequest (api this) ("/v1/lifelogs/" ++ lifelogId) None])%list.
Proof.
  unfold getLifelog, bind. rewrite handleRequest_run. unfold axios_get.
  destruct (remote _ _); reflexivity.
Qed.

(** The search tool checks its arguments the same way: an empty query or a
    limit out of range never reaches [searchLifelogs]. *)
Lemma searchLifelogs_schema_checks args params :
  searchLifelogs_schema args = Some params ->
  SearchLifelogsParams.query params <> "" /\
  (1 <= SearchLifelogsParams.limit params <= 10)%Z.
Proof.
  unfold searchLifelogs_schema.
  destruct (z_min_length 1 z_string (get_arg "query" args)) as [q|] eqn:Hq;
    [| discriminate].
  destruct (z_optional z_string (get_arg "date_from" args)); [| discriminate].
  destruct (z_optional z_string (get_arg "date_to" args)); [| discriminate].
  destruct (z_optional z_string (get_arg "timezone" args)); [| discriminate].
  destruct (z_optional z_string (get_arg "cursor" args)); [| discriminate].
  destruct (limit_schema (get_arg "limit" args)) as [l|] eqn:Hl;
    [| discriminate].
  intros H; injection H as <-. simpl. split.
  - unfold z_min_length, z_string in Hq.
    destruct (get_arg "query" args) as [| | b | k | q']; try discriminate.
    destruct q' as [|c q']; simpl in Hq; [discriminate |].
    injection Hq as <-. discriminate.
  - unfold limit_schema, z_default in Hl.
    destruct (get_arg "limit" args) as [| | b | n | s]; simpl in Hl;
      try discriminate.
    + injection Hl as <-. lia.
    + unfold z_max, z_min, z_number in Hl.
      destruct (Z.leb_spec 1 n); simpl in Hl; [| discriminate].
      destruct (Z.leb_spec n 10); simpl in Hl; [| discriminate].
      injection Hl as <-. lia.
Qed.

(** * Further properties of the client *)

Lemma rewrapped_prefix (e : Thrown) :
  exists rest, rewrapped e = "Limitless API error" ++ rest.
Proof.
  destruct e as [a | m | c m | s]; simpl.
  - exists (" (" ++ response_status a ++ "): " ++
            or_string (response_data_message a) (Axios.message a)).
    reflexivity.
  - exists (": " ++ m). reflexivity.
  - exists (": " ++ m). reflexivity.
  - exists (": " ++ s). reflexivity.
Qed.

Lemma getLifelogs_run_default
    (remote : Remote ListLifelogsResponse.t) this params log :
  getLifelogs remote this params log =
  let p := match params with Some p => p | None => default_list_params end in
  let r := Axios.mkRequest (api this) "/v1/lifelogs" (Some p) in
  (match remote log r with
   | Fulfilled resp => Fulfilled (Axios.data resp)
   | Rejected e => Rejected (ThrownError (rewrapped e))
   end, (log ++ [r])%list).
Proof.
  destruct params as [p|]; [apply getLifelogs_run |].
  change (getLifelogs remote this None log)
    with (getLifelogs remote this (Some default_list_params) log).
  apply getLifelogs_run.
Qed.

Lemma getLifelog_run (remote : Remote GetLifelogResponse.t) this lifelogId log :
  getLifelog remote this lifelogId log =
  let r := Axios.mkRequest (api this) ("/v1/lifelogs/" ++ lifelogId) None in
  (match remote log r with
   | Fulfilled resp =>
       Fulfilled (GetLifelogResponse.data_lifelog (Axios.data resp))
   | Rejected e => Rejected (ThrownError (rewrapped e))
   end, (log ++ [r])%list).
Proof.
  unfold getLifelog, bind. rewrite handleRequest_run. unfold axios_get.
  cbv zeta. destruct (remote _ _); reflexivity.
Qed.

Lemma append_assoc (a b c : string) : (a ++ b) ++ c = a ++ (b ++ c).
Proof. induction a as [|x a IH]; simpl; [reflexivity | now rewrite IH]. Qed.

Lemma substring_of_trans (a b c : string) :
  JsString.substring_of a b -> JsString.substring_of b c ->
  JsString.substring_of a c.
Proof.
  intros [p1 [q1 ->]] [p2 [q2 ->]].
  exists (p2 ++ p1), (q1 ++ q2). now rewrite !append_assoc.
Qed.

Section MethodFacts.

Variable toLowerCase : string -> string.
Variable remote_lifelogs : Remote ListLifelogsResponse.t.
Variable remote_lifelog : Remote GetLifelogResponse.t.

(** X2.  Each method issues exactly one request, whether the remote
    fulfils or rejects it: there is no retry and nothing is sent after a
    failure.  [getLifelogs] without an argument sends [limit] 10 and no
    filter. *)
Theorem client_methods_issue_one_request this list_params id search_params log :
  snd (getLifelogs remote_lifelogs this list_params log) =
    (log ++
     [Axios.mkRequest (api this) "/v1/lifelogs"
        (Some match list_params with
              | Some p => p
              | None => ListLifelogsParams.mk None None None None None None 10
              end)])%list
  /\
  snd (getLifelog remote_lifelog this id log) =
    (log ++ [Axios.mkRequest (api this) ("/v1/lifelogs/" ++ id) None])%list
  /\
  length (snd (searchLifelogs toLowerCase remote_lifelogs this search_params log))
    = S (length log).
Proof.
  repeat split.
  - rewrite getLifelogs_run_default. destruct list_params; reflexivity.
  - rewrite getLifelog_run. reflexivity.
  - rewrite searchLifelogs_run, getLifelogs_run. cbv zeta.
    destruct (remote_lifelogs _ _); simpl;
      rewrite length_app; simpl; lia.
Qed.

(** X3.  When the remote answers the request for
    [/v1/lifelogs/] followed by the id as it was given, [getLifelog] is
    fulfilled with the [data.lifelog] of the reply. *)
Theorem getLifelog_returns_reply_entry this id log resp :
  remote_lifelog log
    (Axios.mkRequest (api this) ("/v1/lifelogs/" ++ id) None)
    = Fulfilled resp ->
  getLifelog remote_lifelog this id log =
    (Fulfilled (GetLifelogResponse.data_lifelog (Axios.data resp)),
     (log ++ [Axios.mkRequest (api this) ("/v1/lifelogs/" ++ id) None])%list).
Proof.
  intros Hremote. rewrite getLifelog_run. cbv zeta. now rewrite Hremote.
Qed.

(** X10.  A search whose query lower-cases to the empty string keeps every
    entry: the fetched page comes back as it is. *)
Theorem searchLifelogs_empty_query_keeps_page this params log page log' :
  toLowerCase (SearchLifelogsParams.query params) = "" ->
  getLifelogs remote_lifelogs this (Some (search_list_params params)) log
    = (Fulfilled page, log') ->
  searchLifelogs toLowerCase remote_lifelogs this params log
    = (Fulfilled page, log').
Proof.
  intros Hquery Hfetch. rewrite searchLifelogs_run, Hfetch, Hquery.
  assert (Hall : forall lifelogs,
             filter (entry_matches toLowerCase "") lifelogs = lifelogs).
  { induction lifelogs as [|entry lifelogs IH]; simpl; [reflexivity |].
    unfold entry_matches at 1.
    rewrite JsStringFacts.includes_empty. now rewrite IH. }
  rewrite Hall. now destruct page.
Qed.

(** X11.  Shortening the query to one of its substrings never loses a
    result: an entry that matches a query matches every substring of it,
    so every entry kept for the longer query is kept for the shorter. *)
Theorem entry_matches_substring_query query query' lifelogs entry :
  JsString.substring_of query' query ->
  In entry (filter (entry_matches toLowerCase query) lifelogs) ->
  In entry (filter (entry_matches toLowerCase query') lifelogs).
Proof.
  intros Hsub'. rewrite !filter_In. intros [Hin Hmatch].
  split; [assumption |].
  assert (Hsub : forall s,
             JsString.substring_of query s -> JsString.substring_of query' s).
  { intros s. now apply substring_of_trans. }
  apply entry_matches_true_iff in Hmatch. apply entry_matches_true_iff.
  destruct Hmatch as [H | [[m [Hm H]] | [item [Hitem H]]]].
  - left. now apply Hsub.
  - right; left. exists m. split; [assumption | now apply Hsub].
  - right; right. exists item. split; [assumption | now apply Hsub].
Qed.

End MethodFacts.

(** * Further properties of the constructor *)

Section MoreConstructorFacts.

Variable trim : string -> string.

(** X4.  A credential in the configuration that is not empty but trims to
    the empty string is fatal whatever the environment holds: the
    environment variable is consulted only when the configuration has no
    credential or an empty one. *)
Theorem new_LimitlessClient_blank_config_key env config key :
  LimitlessConfig.apiKey config = Some key ->
  key <> "" ->
  trim key = "" ->
  new_LimitlessClient trim env config
    = Rejected (ThrownError api_key_required).
Proof.
  intros Hkey Hne Hblank. unfold new_LimitlessClient, or_string_opt.
  rewrite Hkey. simpl.
  destruct (String.eqb_spec key ""); [contradiction |]. simpl.
  destruct (String.eqb_spec key ""); [contradiction |].
  now rewrite Hblank.
Qed.

(** X5.  The constructor returns a client exactly when the credential it
    selects is usable: the one of the configuration when that is present
    and not empty, else the one of the environment, and in both cases not
    empty and not trimming to the empty string. *)
Theorem new_LimitlessClient_succeeds_iff env config :
  (exists client, new_LimitlessClient trim env config = Fulfilled client) <->
  exists key,
    ((LimitlessConfig.apiKey config = Some key) \/
     (absent_credential (LimitlessConfig.apiKey config) /\ env = Some key)) /\
    key <> "" /\ trim key <> "".
Proof.
  unfold new_LimitlessClient, or_string_opt, truthy_string, absent_credential.
  destruct (LimitlessConfig.apiKey config) as [k|].
  - destruct (String.eqb_spec k ""); simpl.
    + subst k. destruct env as [k'|].
      * destruct (String.eqb_spec k' ""); simpl.
        -- split; [intros [c H]; discriminate |].
           intros [key [[H | [_ H]] [Hne _]]]; injection H as <-;
             contradiction.
        -- destruct (String.eqb_spec (trim k') ""); split.
           ++ intros [c H]; discriminate.
           ++ intros [key [[H | [_ H]] [Hne Ht]]]; injection H as <-;
                contradiction.
           ++ intros _. exists k'. auto.
           ++ intros _. eexists; reflexivity.
      * split; [intros [c H]; discriminate |].
        intros [key [[H | [_ H]] [Hne _]]]; [injection H as <- | discriminate].
        contradiction.
    + destruct (String.eqb_spec k ""); [contradiction |]. simpl.
      destruct (String.eqb_spec (trim k) ""); split.
      * intros [c H]; discriminate.
      * intros [key [[H | [[H' | H'] H]] [Hne Ht]]].
        -- injection H as <-. contradiction.
        -- discriminate.
        -- injection H' as ->. contradiction.
      * intros _. exists k. auto.
      * intros _. eexists; reflexivity.
  - simpl. destruct env as [k'|].
    + destruct (String.eqb_spec k' ""); simpl.
      * split; [intros [c H]; discriminate |].
        intros [key [[H | [_ H]] [Hne _]]]; [discriminate |].
        injection H as <-. contradiction.
      * destruct (String.eqb_spec (trim k') ""); split.
        -- intros [c H]; discriminate.
        -- intros [key [[H | [_ H]] [Hne Ht]]]; [discriminate |].
           injection H as <-. contradiction.
        -- intros _. exists k'. auto.
        -- intros _. eexists; reflexivity.
    + split; [intros [c H]; discriminate |].
      intros [key [[H | [_ H]] _]]; discriminate.
Qed.

(** X6.  A client that the constructor returns keeps the configuration it
    was given and talks through an Axios instance that sends the selected
    credential as it is (not trimmed), with the base URL of the
    configuration when that is present and not empty and
    [https://api.limitless.ai] otherwise, the JSON content type and a
    timeout of 30000 ms. *)
Theorem new_LimitlessClient_instance env cfg client :
  new_LimitlessClient trim env cfg = Fulfilled client ->
  config client = cfg /\
  (forall key,
      LimitlessConfig.apiKey cfg = Some key -> key <> "" ->
      Axios.X_API_Key (api client) = key) /\
  (absent_credential (LimitlessConfig.apiKey cfg) ->
   env = Some (Axios.X_API_Key (api client))) /\
  (forall url,
      LimitlessConfig.baseUrl cfg = Some url -> url <> "" ->
      Axios.baseURL (api client) = url) /\
  (absent_credential (LimitlessConfig.baseUrl cfg) ->
   Axios.baseURL (api client) = "https://api.limitless.ai") /\
  Axios.Content_Type (api client) = "application/json" /\
  Axios.timeout (api client) = 30000%Z.
Proof.
  unfold new_LimitlessClient. intros H.
  destruct (or_string_opt (LimitlessConfig.apiKey cfg) env) as [k|] eqn:Hsel;
    [| discriminate].
  destruct ((k =? "") || (trim k =? "")); [discriminate |].
  injection H as <-. simpl.
  unfold or_string_opt, truthy_string, absent_credential in *.
  split; [reflexivity |]. split; [| split; [| split; [| split]]].
  - intros key Hkey Hne. rewrite Hkey in Hsel.
    destruct (String.eqb_spec key ""); [contradiction |].
    simpl in Hsel. congruence.
  - intros [Habs | Habs]; rewrite Habs in Hsel; simpl in Hsel; assumption.
  - intros url Hurl Hne. unfold or_string. rewrite Hurl.
    destruct (String.eqb_spec url ""); [contradiction | reflexivity].
  - intros [Habs | Habs]; unfold or_string; rewrite Habs; reflexivity.
  - split; reflexivity.
Qed.

End MoreConstructorFacts.

(** * Further properties of the tools and their schemas *)

Lemma limit_schema_range (v : JsVal) (l : Z) :
  limit_schema v = Some l -> (1 <= l <= 10)%Z.
Proof.
  unfold limit_schema, z_default.
  destruct v as [| | b | n | s]; simpl; try discriminate.
  - intros H; injection H as <-. lia.
  - unfold z_max, z_min, z_number.
    destruct (Z.leb_spec 1 n); simpl; [| discriminate].
    destruct (Z.leb_spec n 10); simpl; [| discriminate].
    intros Heq; injection Heq as <-. lia.
Qed.

Lemma limit_schema_number_range (n l : Z) :
  limit_schema (JNumber n) = Some l -> (1 <= n <= 10)%Z.
Proof.
  rewrite limit_schema_number.
  destruct (Z.leb_spec 1 n), (Z.leb_spec n 10); simpl;
    try discriminate; lia.
Qed.

Lemma limit_schema_undefined : limit_schema JUndefined = Some 10%Z.
Proof. reflexivity. Qed.

Lemma searchLifelogs_schema_fields args params :
  searchLifelogs_schema args = Some params ->
  z_min_length 1 z_string (get_arg "query" args)
    = Some (SearchLifelogsParams.query params) /\
  limit_schema (get_arg "limit" args)
    = Some (SearchLifelogsParams.limit params).
Proof.
  unfold searchLifelogs_schema.
  destruct (z_min_length 1 z_string (get_arg "query" args)); [| discriminate].
  destruct (z_optional z_string (get_arg "date_from" args)); [| discriminate].
  destruct (z_optional z_string (get_arg "date_to" args)); [| discriminate].
  destruct (z_optional z_string (get_arg "timezone" args)); [| discriminate].
  destruct (z_optional z_string (get_arg "cursor" args)); [| discriminate].
  destruct (limit_schema (get_arg "limit" args)); [| discriminate].
  intros H; injection H as <-. split; reflexivity.
Qed.

Lemma z_min_length_nonempty (v : JsVal) :
  is_nonempty_string v = false -> z_min_length 1 z_string v = None.
Proof.
  unfold z_min_length, z_string.
  destruct v as [| | b | n | s]; try reflexivity.
  destruct s; [reflexivity | discriminate].
Qed.

Lemma z_default_value_limit (v : JsVal) :
  z_default_value (JNumber 10) (z_max 10 (z_min 1 z_number)) v
    = limit_schema v.
Proof.
  unfold limit_schema, z_default, z_default_value, z_optional.
  destruct v as [| | b | n | s]; try reflexivity.
  destruct (z_max 10 (z_min 1 z_number) (JNumber n)); reflexivity.
Qed.

(** X12.  The schemas that [types.ts] exports, and from which the
    parameter types are inferred, accept the same arguments with the same
    results as the schemas written out at the registration of the three
    tools. *)
Theorem exported_schemas_agree_with_tools (args : Args) :
  ListLifelogsParamsSchema args = getLifelogs_schema args /\
  GetLifelogParamsSchema args = getLifelogEntry_schema args /\
  SearchLifelogsParamsSchema args = searchLifelogs_schema args.
Proof.
  unfold ListLifelogsParamsSchema, getLifelogs_schema,
    SearchLifelogsParamsSchema, searchLifelogs_schema.
  rewrite z_default_value_limit. repeat split.
Qed.

(** X8.  A call that gives no [limit] is run with the limit 10, by the
    list tool and by the search tool alike. *)
Theorem tools_limit_defaults_to_10 (args : Args) :
  get_arg "limit" args = JUndefined ->
  (forall params,
      getLifelogs_schema args = Some params ->
      ListLifelogsParams.limit params = 10%Z) /\
  (forall params,
      searchLifelogs_schema args = Some params ->
      SearchLifelogsParams.limit params = 10%Z).
Proof.
  intros Hlimit. split; intros params Hparse.
  - apply getLifelogs_schema_limit in Hparse.
    rewrite Hlimit, limit_schema_undefined in Hparse. now injection Hparse.
  - apply searchLifelogs_schema_fields in Hparse. destruct Hparse as [_ H].
    rewrite Hlimit, limit_schema_undefined in H. now injection H.
Qed.

(** X13.  For a day of the week from 0 (Sunday) to 6 (Saturday), the
    offset the week resource adds to today's date lies between -6 and 0
    and leads to day 1 (Monday): the Monday of the Monday-to-Sunday week
    that holds today, which is today itself when today is a Monday. *)
Theorem mondayOffset_reaches_monday (dayOfWeek : Z) :
  (0 <= dayOfWeek <= 6)%Z ->
  (-6 <= mondayOffset dayOfWeek <= 0)%Z /\
  ((dayOfWeek + mondayOffset dayOfWeek) mod 7 = 1)%Z /\
  (dayOfWeek = 1%Z -> mondayOffset dayOfWeek = 0%Z).
Proof.
  intros Hday. unfold mondayOffset.
  destruct (Z.eqb_spec dayOfWeek 0) as [-> | Hne].
  - repeat split; solve [lia | reflexivity].
  - replace (dayOfWeek + (1 - dayOfWeek))%Z with 1%Z by lia.
    repeat split; solve [lia | reflexivity].
Qed.

Section MoreToolFacts.

Variable toLowerCase : string -> string.
Variable remote_lifelogs : Remote ListLifelogsResponse.t.
Variable format_lifelogs :
  ListLifelogsParams.t -> ListLifelogsResponse.t -> string.
Variable format_matches :
  SearchLifelogsParams.t -> ListLifelogsResponse.t -> string.
Variable sdk_refusal : string -> Args -> Settled CallToolResult.

Lemma searchLifelogs_tool_request this args params log :
  searchLifelogs_schema args = Some params ->
  snd (searchLifelogs_tool toLowerCase remote_lifelogs format_matches
         sdk_refusal this args log) =
    (log ++
     [Axios.mkRequest (api this) "/v1/lifelogs"
        (Some (search_list_params params))])%list.
Proof.
  intros Hparse. unfold searchLifelogs_tool.
  erewrite callTool_accepts by exact Hparse.
  unfold bind at 1. rewrite searchLifelogs_run, getLifelogs_run. cbv zeta.
  destruct (remote_lifelogs _ _) as [resp | e]; [| reflexivity].
  cbn [ListLifelogsResponse.data_lifelogs].
  destruct (filter _ _); reflexivity.
Qed.

(** X7.  A call of the [searchLifelogs] tool whose [query] is empty,
    missing or not a string, or whose [limit] is a number below 1 or above
    10, is refused by the input schema of the tool: the handler does not
    run, no request is issued, and the call is answered with the refusal
    of the SDK. *)
Theorem searchLifelogs_tool_rejects this args log :
  is_nonempty_string (get_arg "query" args) = false \/
  (exists n, get_arg "limit" args = JNumber n /\ (n < 1 \/ 10 < n)%Z) ->
  searchLifelogs_schema args = None /\
  searchLifelogs_tool toLowerCase remote_lifelogs format_matches sdk_refusal
    this args log
  = (sdk_refusal "searchLifelogs" args, log).
Proof.
  intros Hbad.
  assert (Hnone : searchLifelogs_schema args = None).
  { destruct (searchLifelogs_schema args) as [params|] eqn:Hparse;
      [| reflexivity].
    apply searchLifelogs_schema_fields in Hparse.
    destruct Hparse as [Hq Hl].
    destruct Hbad as [Hquery | [n [Hn Hout]]].
    - rewrite (z_min_length_nonempty _ Hquery) in Hq. discriminate.
    - rewrite Hn in Hl. apply limit_schema_number_range in Hl. lia. }
  split; [exact Hnone |].
  unfold searchLifelogs_tool. now apply callTool_refuses.
Qed.

(** X9.  Every request that a call of the list tool or of the search tool
    adds to the log goes to [/v1/lifelogs] with a [limit] from 1 to 10. *)
Theorem tool_requests_keep_limit_in_range this args log r :
  In r (snd (getLifelogs_tool remote_lifelogs format_lifelogs sdk_refusal
               this args log))
  \/
  In r (snd (searchLifelogs_tool toLowerCase remote_lifelogs format_matches
               sdk_refusal this args log)) ->
  In r log \/
  exists params,
    Axios.params r = Some params /\
    Axios.url r = "/v1/lifelogs" /\
    (1 <= ListLifelogsParams.limit params <= 10)%Z.
Proof.
  intros [Hin | Hin].
  - destruct (getLifelogs_schema args) as [params|] eqn:Hparse.
    + rewrite (getLifelogs_tool_request remote_lifelogs format_lifelogs
                 sdk_refusal this _ log Hparse) in Hin.
      apply in_app_or in Hin. destruct Hin as [Hin | [<- | []]]; [now left |].
      right. exists params. repeat split; simpl;
        apply getLifelogs_schema_limit in Hparse;
        apply limit_schema_range in Hparse; lia.
    + unfold getLifelogs_tool in Hin.
      rewrite callTool_refuses in Hin by exact Hparse. now left.
  - destruct (searchLifelogs_schema args) as [params|] eqn:Hparse.
    + rewrite (searchLifelogs_tool_request this _ log Hparse) in Hin.
      apply in_app_or in Hin. destruct Hin as [Hin | [<- | []]]; [now left |].
      right. exists (search_list_params params). repeat split; simpl;
        apply searchLifelogs_schema_checks in Hparse; lia.
    + unfold searchLifelogs_tool in Hin.
      rewrite callTool_refuses in Hin by exact Hparse. now left.
Qed.

End MoreToolFacts.

(** * Properties of the resources *)

Lemma filter_nil_iff {A : Type} (f : A -> bool) (l : list A) :
  filter f l = [] <-> forall x, In x l -> f x = false.
Proof.
  split; [| apply filter_none].
  intros Hnil x Hin. destruct (f x) eqn:Hfx; [| reflexivity].
  assert (Hx : In x (filter f l)) by (apply filter_In; auto).
  rewrite Hnil in Hx. destruct Hx.
Qed.

Section ResourceFacts.

Variable toLocaleString : string -> string.
Variable remote_lifelogs : Remote ListLifelogsResponse.t.
Variable today : string.
Variable getDay : Z.
Variable date_after : Z -> string.

(** X14.  Reading a resource never rejects: each of the four resources is
    fulfilled with one content under its own URI, whatever the remote
    does, after exactly one list request with the limit 10 and no cursor.
    The request of [today] carries the UTC date of the moment of the call,
    that of [week] the UTC date of the moment reached by moving the local
    date by the Monday offset, which is not always the date of the local
    Monday, and those of [recent] and [starred] carry no date. *)
Theorem resources_always_fulfil this log :
  (exists c,
      today_lifelogs toLocaleString remote_lifelogs today this log =
        (Fulfilled [c],
         (log ++
          [Axios.mkRequest (api this) "/v1/lifelogs"
             (Some (ListLifelogsParams.mk (Some today) None None None None
                      None 10))])%list) /\
      ResourceContent.uri c = "limitless://lifelogs/today") /\
  (exists c,
      recent_lifelogs toLocaleString remote_lifelogs this log =
        (Fulfilled [c],
         (log ++
          [Axios.mkRequest (api this) "/v1/lifelogs"
             (Some (ListLifelogsParams.mk None None None None None None
                      10))])%list) /\
      ResourceContent.uri c = "limitless://lifelogs/recent") /\
  (exists c,
      week_lifelogs toLocaleString remote_lifelogs getDay date_after this log =
        (Fulfilled [c],
         (log ++
          [Axios.mkRequest (api this) "/v1/lifelogs"
             (Some (ListLifelogsParams.mk
                      (Some (date_after (mondayOffset getDay)))
                      None None None None None 10))])%list) /\
      ResourceContent.uri c = "limitless://lifelogs/week") /\
  (exists c,
      starred_lifelogs toLocaleString remote_lifelogs this log =
        (Fulfilled [c],
         (log ++
          [Axios.mkRequest (api this) "/v1/lifelogs"
             (Some (ListLifelogsParams.mk None None None None None None
                      10))])%list) /\
      ResourceContent.uri c = "limitless://lifelogs/starred").
Proof.
  repeat split.
  - unfold today_lifelogs, try_catch, bind. rewrite getLifelogs_run.
    cbv zeta. unfold list_params.
    destruct (remote_lifelogs _ _) as [resp | e].
    + destruct (ListLifelogsResponse.data_lifelogs (Axios.data resp));
        eexists; split; reflexivity.
    + eexists; split; reflexivity.
  - unfold recent_lifelogs, try_catch, bind. rewrite getLifelogs_run.
    cbv zeta. unfold list_params.
    destruct (remote_lifelogs _ _) as [resp | e].
    + destruct (ListLifelogsResponse.data_lifelogs (Axios.data resp));
        eexists; split; reflexivity.
    + eexists; split; reflexivity.
  - unfold week_lifelogs, try_catch, bind. cbv zeta. rewrite getLifelogs_run.
    cbv zeta. unfold list_params.
    destruct (remote_lifelogs _ _) as [resp | e].
    + destruct (ListLifelogsResponse.data_lifelogs (Axios.data resp));
        eexists; split; reflexivity.
    + eexists; split; reflexivity.
  - unfold starred_lifelogs, try_catch, bind. rewrite getLifelogs_run.
    cbv zeta. unfold list_params.
    destruct (remote_lifelogs _ _) as [resp | e].
    + destruct (filter _ _); eexists; split; reflexivity.
    + eexists; split; reflexivity.
Qed.

(** X15.  When the remote rejects the request, each resource is fulfilled
    with a plain-text content that names the resource and then gives the
    message of the client, which begins with [Limitless API error]; the
    fallback text [Unknown error] is never shown for a failed fetch. *)
Theorem resources_report_fetch_errors this log e :
  (forall r, remote_lifelogs log r = Rejected e) ->
  fst (today_lifelogs toLocaleString remote_lifelogs today this log) =
    Fulfilled
      [ResourceContent.mk "limitless://lifelogs/today"
         ("Error fetching today's lifelogs: " ++ rewrapped e) "text/plain"] /\
  fst (recent_lifelogs toLocaleString remote_lifelogs this log) =
    Fulfilled
      [ResourceContent.mk "limitless://lifelogs/recent"
         ("Error fetching recent lifelogs: " ++ rewrapped e) "text/plain"] /\
  fst (week_lifelogs toLocaleString remote_lifelogs getDay date_after this log)
  = Fulfilled
      [ResourceContent.mk "limitless://lifelogs/week"
         ("Error fetching this week's lifelogs: " ++ rewrapped e)
         "text/plain"] /\
  fst (starred_lifelogs toLocaleString remote_lifelogs this log) =
    Fulfilled
      [ResourceContent.mk "limitless://lifelogs/starred"
         ("Error fetching starred lifelogs: " ++ rewrapped e) "text/plain"] /\
  exists rest, rewrapped e = "Limitless API error" ++ rest.
Proof.
  intros Hremote. repeat split.
  - unfold today_lifelogs, try_catch, bind. rewrite getLifelogs_run.
    cbv zeta. now rewrite Hremote.
  - unfold recent_lifelogs, try_catch, bind. rewrite getLifelogs_run.
    cbv zeta. now rewrite Hremote.
  - unfold week_lifelogs, try_catch, bind. cbv zeta. rewrite getLifelogs_run.
    cbv zeta. now rewrite Hremote.
  - unfold starred_lifelogs, try_catch, bind. rewrite getLifelogs_run.
    cbv zeta. now rewrite Hremote.
  - apply rewrapped_prefix.
Qed.

(** X16.  The starred resource looks at the one page it fetched: it
    answers with the plain-text [No starred lifelog entries found] notice
    exactly when no entry of that page is starred, also when the page has
    entries, and with a markdown listing otherwise. *)
Theorem starred_lifelogs_notice this log resp :
  remote_lifelogs log
    (Axios.mkRequest (api this) "/v1/lifelogs"
       (Some (ListLifelogsParams.mk None None None None None None 10)))
    = Fulfilled resp ->
  exists c,
    fst (starred_lifelogs toLocaleString remote_lifelogs this log)
      = Fulfilled [c] /\
    ((forall entry,
         In entry (ListLifelogsResponse.data_lifelogs (Axios.data resp)) ->
         LifelogEntry.isStarred entry = false) ->
     c = ResourceContent.mk "limitless://lifelogs/starred"
           "No starred lifelog entries found. Star important entries in your Limitless app to see them here."
           "text/plain") /\
    ((exists entry,
         In entry (ListLifelogsResponse.data_lifelogs (Axios.data resp)) /\
         LifelogEntry.isStarred entry = true) ->
     ResourceContent.mimeType c = "text/markdown").
Proof.
  intros Hremote.
  unfold starred_lifelogs, try_catch, bind. rewrite getLifelogs_run.
  cbv zeta. unfold list_params. rewrite Hremote.
  destruct (filter LifelogEntry.isStarred
              (ListLifelogsResponse.data_lifelogs (Axios.data resp)))
    as [|entry0 rest] eqn:Hfilter.
  - eexists; split; [reflexivity |]. split; [reflexivity |].
    intros [entry [Hin Hstar]].
    rewrite (proj1 (filter_nil_iff _ _) Hfilter entry Hin) in Hstar.
    discriminate.
  - eexists; split; [reflexivity |]. split; [| reflexivity].
    intros Hnone. apply filter_nil_iff in Hnone. congruence.
Qed.

End ResourceFacts.

(** * Properties of the tool texts *)

Lemma append_eq_empty (a b : string) : a ++ b = "" -> a = "".
Proof. destruct a; [reflexivity | discriminate]. Qed.

Lemma concat_eq_empty (sep x : string) (xs : list string) :
  String.concat sep (x :: xs) = "" -> x = "".
Proof.
  simpl. destruct xs; [trivial | apply append_eq_empty].
Qed.

Section PresentationFacts.

Variable toLowerCase : string -> string.
Variable toLocaleString : string -> string.
Variable remote_lifelogs : Remote ListLifelogsResponse.t.
Variable sdk_refusal : string -> Args -> Settled CallToolResult.

(** X17.  In the text of the list tool an entry gets a [Topics] block
    exactly when it has a second-level heading among its content items:
    the joined headings are the empty string if and only if no item is of
    type [heading2], whatever the headings contain. *)
Theorem headings_empty_iff (entry : LifelogEntry.t) :
  headings entry = "" <->
  forall item,
    In item (LifelogEntry.contents entry) ->
    LifelogContentItem.type item <> heading2.
Proof.
  unfold headings. split.
  - intros Hempty item Hin Htype.
    destruct (filter is_heading2 (LifelogEntry.contents entry))
      as [|h rest] eqn:Hfilter.
    + assert (Hh : is_heading2 item = false)
        by (apply (proj1 (filter_nil_iff _ _) Hfilter); assumption).
      unfold is_heading2 in Hh. rewrite Htype in Hh. discriminate.
    + simpl map in Hempty. apply concat_eq_empty in Hempty. discriminate.
  - intros Hnone.
    replace (filter is_heading2 (LifelogEntry.contents entry)) with
      (@nil LifelogContentItem.t); [reflexivity |].
    symmetry. apply filter_nil_iff. intros item Hin.
    specialize (Hnone item Hin). unfold is_heading2.
    destruct (LifelogContentItem.type item); try reflexivity.
    now contradiction Hnone.
Qed.

Lemma matchingItems_nonempty_iff query entry :
  matchingItems toLowerCase query entry <> [] <->
  exists item,
    In item (LifelogEntry.contents entry) /\
    JsString.includes (toLowerCase (LifelogContentItem.content item))
      (toLowerCase query) = true.
Proof.
  unfold matchingItems. split.
  - intros Hne.
    destruct (filter _ (LifelogEntry.contents entry)) as [|item rest] eqn:Hf;
      [contradiction |].
    exists item.
    apply (proj1 (filter_In
                    (fun item =>
                       JsString.includes
                         (toLowerCase (LifelogContentItem.content item))
                         (toLowerCase query))
                    item (LifelogEntry.contents entry))).
    rewrite Hf. now left.
  - intros [item Hitem] Hnil.
    apply (proj2 (filter_In
                    (fun item =>
                       JsString.includes
                         (toLowerCase (LifelogContentItem.content item))
                         (toLowerCase query))
                    item (LifelogEntry.contents entry))) in Hitem.
    rewrite Hnil in Hitem. destruct Hitem.
Qed.

(** X18.  The search tool works out the excerpts of an entry by the test
    the search itself applied to the content items.  So an entry is kept
    by the search exactly when its title matches, or its markdown matches,
    or the tool has an excerpt to show for it: every entry shown with
    excerpts is a result, and a result shown without excerpts matched by
    its title or its markdown. *)
Theorem search_results_and_excerpts_agree query entry :
  entry_matches toLowerCase (toLowerCase query) entry = true <->
  JsString.includes (toLowerCase (LifelogEntry.title entry))
    (toLowerCase query) = true \/
  (exists markdown,
      LifelogEntry.markdown entry = Some markdown /\
      JsString.includes (toLowerCase markdown) (toLowerCase query) = true) \/
  matchingItems toLowerCase query entry <> [].
Proof.
  rewrite entry_matches_true_iff, matchingItems_nonempty_iff.
  rewrite <- JsStringFacts.includes_spec.
  split.
  - intros [H | [[m [Hm H]] | [item [Hin H]]]].
    + now left.
    + right; left. exists m. now rewrite JsStringFacts.includes_spec.
    + right; right. exists item. now rewrite JsStringFacts.includes_spec.
  - intros [H | [[m [Hm H]] | [item [Hin H]]]].
    + now left.
    + right; left. exists m. now rewrite <- JsStringFacts.includes_spec.
    + right; right. exists item. now rewrite <- JsStringFacts.includes_spec.
Qed.

(** X19.  For arguments that the schema accepts and a fetch that the remote
    fulfils, the search tool answers with a text, and that text is the
    [No lifelog entries found matching] notice exactly when no entry of
    the fetched page matches; with a match the text is the listing, which
    begins with [Found]. *)
Theorem searchLifelogs_tool_notice this args params log resp :
  searchLifelogs_schema args = Some params ->
  remote_lifelogs log
    (Axios.mkRequest (api this) "/v1/lifelogs"
       (Some (search_list_params params)))
    = Fulfilled resp ->
  exists answer,
    fst (searchLifelogs_tool toLowerCase remote_lifelogs
           (searchLifelogs_text toLowerCase toLocaleString) sdk_refusal this
           args log)
      = Fulfilled (mkCallToolResult answer false) /\
    (answer =
       "No lifelog entries found matching " ++ dquote ++
       SearchLifelogsParams.query params ++ dquote ++ "."
     <->
     forall entry,
       In entry (ListLifelogsResponse.data_lifelogs (Axios.data resp)) ->
       entry_matches toLowerCase
         (toLowerCase (SearchLifelogsParams.query params)) entry = false).
Proof.
  intros Hparse Hremote.
  unfold searchLifelogs_tool. erewrite callTool_accepts by exact Hparse.
  unfold bind at 1. rewrite searchLifelogs_run, getLifelogs_run. cbv zeta.
  rewrite Hremote.
  cbn [ListLifelogsResponse.data_lifelogs ListLifelogsResponse.meta].
  destruct (filter _ (ListLifelogsResponse.data_lifelogs (Axios.data resp)))
    as [|entry0 rest] eqn:Hfilter.
  - eexists; split; [reflexivity |]. split; [| reflexivity].
    intros _. now apply filter_nil_iff.
  - eexists; split; [reflexivity |]. split.
    + unfold searchLifelogs_text. intros Habs. discriminate Habs.
    + intros Hnone. apply filter_nil_iff in Hnone. congruence.
Qed.

End PresentationFacts.

(** * Properties of the server *)

Section ServerFacts.

Variable trim : string -> string.

(** X20.  [createServer] fails exactly as the constructor of the client
    fails, with the same thrown value and nothing written to the error
    stream.  When the client is constructed, the server comes back with
    the three tools [getLifelogs], [getLifelogEntry] and [searchLifelogs]
    registered, in that order, the registration never failing, and with no
    resource and no prompt registered; one [INFO] line is written. *)
Theorem createServer_registers_tools_only env cfg :
  createServer trim env cfg =
  match new_LimitlessClient trim env cfg with
  | Rejected e => (Rejected e, [])
  | Fulfilled _ =>
      (Fulfilled
         (mkServer ["getLifelogs"; "getLifelogEntry"; "searchLifelogs"]
            [] []),
       ["[INFO] Successfully registered all Limitless AI tools"])
  end.
Proof.
  unfold createServer.
  destruct (new_LimitlessClient trim env cfg); reflexivity.
Qed.

End ServerFacts.

Section MainFacts.

Variable trim : string -> string.
Variable env_LIMITLESS_BASE_URL : option string.
Variable is_url : string -> bool.
Variable zod_error : Thrown.
Variable connect : McpServer -> Settled unit.

(** X21.  Started without [LIMITLESS_API_KEY], or with an empty one, the
    process writes that the variable is required and exits with status 1,
    whatever the base URL is and whatever the transport would do: it never
    gets to serve. *)
Theorem main_exits_without_api_key env_LIMITLESS_API_KEY :
  absent_credential env_LIMITLESS_API_KEY ->
  exists lines,
    main trim env_LIMITLESS_API_KEY env_LIMITLESS_BASE_URL is_url zod_error
      connect
    = (Exited 1,
       ConsoleText
         "Environment variable LIMITLESS_API_KEY is required. Get your API key from https://www.limitless.ai/developers"
       :: lines).
Proof.
  intros Habs. unfold main, LimitlessConfigSchema_parse, createServer.
  destruct (is_url _).
  - destruct Habs as [-> | ->]; simpl; eexists; reflexivity.
  - destruct Habs as [-> | ->]; simpl; eexists; reflexivity.
Qed.

(** X22.  Started with a key that is usable (not empty, not trimming to
    the empty string), a base URL that passes the URL test and a transport
    that connects, the process serves the server with the three tools and
    writes the three lines of a normal start. *)
Theorem main_serves_with_api_key key :
  key <> "" ->
  trim key <> "" ->
  is_url (or_string env_LIMITLESS_BASE_URL "https://api.limitless.ai") = true ->
  connect
    (mkServer ["getLifelogs"; "getLifelogEntry"; "searchLifelogs"] [] [])
    = Fulfilled tt ->
  main trim (Some key) env_LIMITLESS_BASE_URL is_url zod_error connect
  = (Serving
       (mkServer ["getLifelogs"; "getLifelogEntry"; "searchLifelogs"] [] []),
     [ConsoleText "[INFO] Successfully registered all Limitless AI tools";
      ConsoleText "[INFO] MCP Server started successfully";
      ConsoleText "MCP Server running on stdio transport"]).
Proof.
  intros Hne Htrim Hurl Hconnect.
  unfold main, LimitlessConfigSchema_parse. rewrite Hurl.
  unfold createServer, new_LimitlessClient, or_string_opt. simpl.
  destruct (String.eqb_spec key ""); [contradiction |]. simpl.
  destruct (String.eqb_spec key ""); [contradiction |]. simpl.
  destruct (String.eqb_spec (trim key) ""); [contradiction |]. simpl.
  now rewrite Hconnect.
Qed.

End MainFacts.

(** * The further statements on fixed inputs *)

Lemma getLifelog_returns_reply_entry_witness :
  getLifelog Sample.remote_entry Sample.client "a/b c" [] =
    (Fulfilled Sample.meeting,
     [Axios.mkRequest (api Sample.client) "/v1/lifelogs/a/b c" None]).
Proof.
  exact (@getLifelog_returns_reply_entry Sample.remote_entry Sample.client
           "a/b c" [] _ eq_refl).
Defined.

Lemma searchLifelogs_empty_query_keeps_page_witness :
  searchLifelogs JsString.toLowerCase Sample.remote_page Sample.client
    (Sample.search "") []
  = (Fulfilled Sample.page, Sample.search_log (Sample.search "")).
Proof.
  exact (@searchLifelogs_empty_query_keeps_page JsString.toLowerCase
           Sample.remote_page Sample.client (Sample.search "") []
           Sample.page _ eq_refl eq_refl).
Defined.

Lemma entry_matches_substring_query_witness :
  In Sample.meeting
    (filter (entry_matches JsString.toLowerCase "meeting")
       [Sample.meeting; Sample.grocery; Sample.standup]).
Proof.
  apply (@entry_matches_substring_query JsString.toLowerCase
           "meeting notes" "meeting").
  - exists "", " notes". reflexivity.
  - simpl. left. reflexivity.
Defined.

Lemma new_LimitlessClient_blank_config_key_witness :
  new_LimitlessClient JsString.trim (Some "sk-live")
    (LimitlessConfig.mk (Some "   ") None)
  = Rejected (ThrownError api_key_required).
Proof.
  apply (@new_LimitlessClient_blank_config_key JsString.trim (Some "sk-live")
           (LimitlessConfig.mk (Some "   ") None) "   ").
  - reflexivity.
  - discriminate.
  - reflexivity.
Defined.

Lemma new_LimitlessClient_instance_witness :
  exists client,
    new_LimitlessClient JsString.trim (Some "sk-env")
      (LimitlessConfig.mk (Some " sk-config ") None)
    = Fulfilled client /\
    Axios.X_API_Key (api client) = " sk-config " /\
    Axios.baseURL (api client) = "https://api.limitless.ai".
Proof.
  eexists. split; [reflexivity |].
  destruct (@new_LimitlessClient_instance JsString.trim (Some "sk-env")
              (LimitlessConfig.mk (Some " sk-config ") None) _ eq_refl)
    as [_ [Hkey [_ [_ [Hurl _]]]]].
  split.
  - apply Hkey; [reflexivity | discriminate].
  - apply Hurl. left. reflexivity.
Defined.

Lemma tools_limit_defaults_to_10_witness :
  option_map ListLifelogsParams.limit
    (getLifelogs_schema [("date", JString "2025-11-05")]) = Some 10%Z /\
  option_map SearchLifelogsParams.limit
    (searchLifelogs_schema [("query", JString "tea")]) = Some 10%Z.
Proof.
  split.
  - destruct (getLifelogs_schema [("date", JString "2025-11-05")])
      as [params|] eqn:Hparse; [| discriminate Hparse].
    simpl. f_equal.
    exact (proj1 (@tools_limit_defaults_to_10
                    [("date", JString "2025-11-05")] eq_refl) _ Hparse).
  - destruct (searchLifelogs_schema [("query", JString "tea")])
      as [params|] eqn:Hparse; [| discriminate Hparse].
    simpl. f_equal.
    exact (proj2 (@tools_limit_defaults_to_10
                    [("query", JString "tea")] eq_refl) _ Hparse).
Defined.

Lemma mondayOffset_reaches_monday_witness :
  mondayOffset 0 = (-6)%Z /\ ((0 + mondayOffset 0) mod 7 = 1)%Z.
Proof.
  assert (Hday : (0 <= 0 <= 6)%Z) by lia.
  destruct (@mondayOffset_reaches_monday 0%Z Hday) as [_ [Hmod _]].
  split; [reflexivity | exact Hmod].
Defined.

Lemma searchLifelogs_tool_rejects_witness :
  searchLifelogs_tool JsString.toLowerCase Sample.remote_page
    (searchLifelogs_text JsString.toLowerCase Fixture.toLocaleString)
    Sample.sdk_refusal Sample.client
    [("query", JString ""); ("limit", JNumber 5)] []
  = (Sample.sdk_refusal "searchLifelogs"
       [("query", JString ""); ("limit", JNumber 5)], [])
  /\
  searchLifelogs_tool JsString.toLowerCase Sample.remote_page
    (searchLifelogs_text JsString.toLowerCase Fixture.toLocaleString)
    Sample.sdk_refusal Sample.client
    [("query", JString "tea"); ("limit", JNumber 50)] []
  = (Sample.sdk_refusal "searchLifelogs"
       [("query", JString "tea"); ("limit", JNumber 50)], []).
Proof.
  split.
  - apply searchLifelogs_tool_rejects. left. reflexivity.
  - apply searchLifelogs_tool_rejects. right. exists 50%Z.
    split; [reflexivity | lia].
Defined.

Lemma tool_requests_keep_limit_in_range_witness :
  exists params,
    Axios.params
      (Axios.mkRequest (api Sample.client) "/v1/lifelogs"
         (Some (ListLifelogsParams.mk None None None None None None 3)))
    = Some params /\
    (1 <= ListLifelogsParams.limit params <= 10)%Z.
Proof.
  destruct (@tool_requests_keep_limit_in_range JsString.toLowerCase
              Sample.remote_page Sample.format_lifelogs
              (searchLifelogs_text JsString.toLowerCase Fixture.toLocaleString)
              Sample.sdk_refusal Sample.client [("limit", JNumber 3)] []
              (Axios.mkRequest (api Sample.client) "/v1/lifelogs"
                 (Some (ListLifelogsParams.mk None None None None None None 3))))
    as [Hin | [params [Hparams [_ Hrange]]]].
  - left. simpl. left. reflexivity.
  - destruct Hin.
  - exists params. split; assumption.
Defined.

Lemma resources_report_fetch_errors_witness :
  fst (today_lifelogs Fixture.toLocaleString
         (Sample.remote_failing (ThrownAxios Sample.error_network))
         Fixture.today Sample.client [])
  = Fulfilled
      [ResourceContent.mk "limitless://lifelogs/today"
         "Error fetching today's lifelogs: Limitless API error (unknown): connect ECONNREFUSED"
         "text/plain"].
Proof.
  exact (proj1 (@resources_report_fetch_errors Fixture.toLocaleString
                  (Sample.remote_failing (ThrownAxios Sample.error_network))
                  Fixture.today 3%Z Fixture.date_after Sample.client []
                  (ThrownAxios Sample.error_network) (fun _ => eq_refl))).
Defined.

Lemma starred_lifelogs_notice_witness :
  exists c,
    fst (starred_lifelogs Fixture.toLocaleString Fixture.remote_starred
           Sample.client []) = Fulfilled [c] /\
    ResourceContent.mimeType c = "text/markdown"
  /\
  fst (starred_lifelogs Fixture.toLocaleString Sample.remote_page
         Sample.client [])
  = Fulfilled
      [ResourceContent.mk "limitless://lifelogs/starred"
         "No starred lifelog entries found. Star important entries in your Limitless app to see them here."
         "text/plain"].
Proof.
  destruct (@starred_lifelogs_notice Fixture.toLocaleString
              Fixture.remote_starred Sample.client [] _ eq_refl)
    as [c [Hrun [_ Hsome]]].
  exists c. split; [exact Hrun |]. split.
  - apply Hsome. exists (Fixture.starred "Launch"). simpl. auto.
  - destruct (@starred_lifelogs_notice Fixture.toLocaleString
                Sample.remote_page Sample.client [] _ eq_refl)
      as [c' [Hrun' [Hnone _]]].
    rewrite Hrun'. rewrite Hnone; [reflexivity |].
    intros entry [<- | [<- | [<- | []]]]; reflexivity.
Defined.

Lemma searchLifelogs_tool_notice_witness :
  fst (searchLifelogs_tool JsString.toLowerCase Sample.remote_page
         (searchLifelogs_text JsString.toLowerCase Fixture.toLocaleString)
         Sample.sdk_refusal Sample.client [("query", JString "budget")] [])
  = Fulfilled
      (mkCallToolResult
         ("No lifelog entries found matching " ++ dquote ++ "budget" ++
          dquote ++ ".") false).
Proof.
  destruct (@searchLifelogs_tool_notice JsString.toLowerCase
              Fixture.toLocaleString Sample.remote_page Sample.sdk_refusal
              Sample.client
              [("query", JString "budget")] _ [] _ eq_refl eq_refl)
    as [answer [Hrun Hiff]].
  rewrite Hrun. do 2 f_equal. apply Hiff.
  intros entry [<- | [<- | [<- | []]]]; reflexivity.
Defined.

Lemma main_exits_without_api_key_witness :
  fst (main JsString.trim None None Fixture.is_url (ThrownError "invalid url")
         Fixture.connect)
  = Exited 1.
Proof.
  destruct (@main_exits_without_api_key JsString.trim None Fixture.is_url
              (ThrownError "invalid url") Fixture.connect None
              (or_introl eq_refl)) as [lines Hrun].
  rewrite Hrun. reflexivity.
Defined.

Lemma main_serves_with_api_key_witness :
  fst (main JsString.trim (Some "sk-live") None Fixture.is_url
         (ThrownError "invalid url") Fixture.connect)
  = Serving
      (mkServer ["getLifelogs"; "getLifelogEntry"; "searchLifelogs"] [] []).
Proof.
  rewrite (@main_serves_with_api_key JsString.trim None Fixture.is_url
             (ThrownError "invalid url") Fixture.connect "sk-live").
  - reflexivity.
  - discriminate.
  - discriminate.
  - reflexivity.
  - reflexivity.
Defined.

Section ListToolFacts.

Variable toLocaleString : string -> string.
Variable remote_lifelogs : Remote ListLifelogsResponse.t.
Variable sdk_refusal : string -> Args -> Settled CallToolResult.

(** X23.  For arguments that the schema accepts and a fetch that the remote
    fulfils, the list tool answers with a text, and that text is the
    [No lifelog entries found for the specified criteria.] notice exactly
    when the fetched page has no entry; otherwise it is the listing, which
    begins with [Found]. *)
Theorem getLifelogs_tool_notice this args params log resp :
  getLifelogs_schema args = Some params ->
  remote_lifelogs log
    (Axios.mkRequest (api this) "/v1/lifelogs" (Some params))
    = Fulfilled resp ->
  exists answer,
    fst (getLifelogs_tool remote_lifelogs (getLifelogs_text toLocaleString)
           sdk_refusal this args log)
      = Fulfilled (mkCallToolResult answer false) /\
    (answer = "No lifelog entries found for the specified criteria." <->
     ListLifelogsResponse.data_lifelogs (Axios.data resp) = []).
Proof.
  intros Hparse Hremote.
  unfold getLifelogs_tool. erewrite callTool_accepts by exact Hparse.
  unfold bind. rewrite getLifelogs_run. cbv zeta. rewrite Hremote.
  destruct (ListLifelogsResponse.data_lifelogs (Axios.data resp))
    as [|entry0 rest] eqn:Hpage.
  - eexists; split; [reflexivity |]. split; reflexivity.
  - eexists; split; [reflexivity |]. split.
    + unfold getLifelogs_text. rewrite Hpage. intros Habs. discriminate Habs.
    + discriminate.
Qed.

End ListToolFacts.

Lemma getLifelogs_tool_notice_witness :
  fst (getLifelogs_tool
         (fun _ _ =>
            Fulfilled (Axios.mkResponse (ListLifelogsResponse.mk [] None) 200))
         (getLifelogs_text Fixture.toLocaleString) Sample.sdk_refusal
         Sample.client [("date", JString "2025-11-05")] [])
  = Fulfilled
      (mkCallToolResult
         "No lifelog entries found for the specified criteria." false).
Proof.
  destruct (@getLifelogs_tool_notice Fixture.toLocaleString
              (fun _ _ =>
                 Fulfilled
                   (Axios.mkResponse (ListLifelogsResponse.mk [] None) 200))
              Sample.sdk_refusal
              Sample.client [("date", JString "2025-11-05")] _ [] _
              eq_refl eq_refl)
    as [answer [Hrun Hiff]].
  rewrite Hrun. do 2 f_equal. apply Hiff. reflexivity.
Defined.

(** * Replies as they arrive *)

Section UntypedFacts.

Variable toLowerCase : string -> string.
Variable type_error : string -> Json -> string.
Variable remote_lifelogs : Remote Json.
Variable remote_lifelog : Remote Json.

Lemma getLifelogs_untyped_run this params log :
  getLifelogs_untyped remote_lifelogs this params log =
  let p := match params with Some p => p | None => default_list_params end in
  let r := Axios.mkRequest (api this) "/v1/lifelogs" (Some p) in
  (match remote_lifelogs log r with
   | Fulfilled resp => Fulfilled (Axios.data resp)
   | Rejected e => Rejected (ThrownError (rewrapped e))
   end, (log ++ [r])%list).
Proof.
  unfold getLifelogs_untyped. rewrite handleRequest_run. unfold axios_get.
  cbv zeta. destruct (remote_lifelogs _ _); reflexivity.
Qed.

Lemma searchLifelogs_untyped_run this params log :
  searchLifelogs_untyped toLowerCase type_error remote_lifelogs this params log
  =
  let r := Axios.mkRequest (api this) "/v1/lifelogs"
             (Some (search_list_params params)) in
  (match remote_lifelogs log r with
   | Fulfilled resp =>
       filter_reply toLowerCase type_error
         (toLowerCase (SearchLifelogsParams.query params)) (Axios.data resp)
   | Rejected e => Rejected (ThrownError (rewrapped e))
   end, (log ++ [r])%list).
Proof.
  unfold searchLifelogs_untyped, bind. rewrite getLifelogs_untyped_run.
  cbv zeta. destruct (remote_lifelogs _ _); reflexivity.
Qed.

Lemma getLifelog_untyped_run this lifelogId log :
  getLifelog_untyped type_error remote_lifelog this lifelogId log =
  let r := Axios.mkRequest (api this) ("/v1/lifelogs/" ++ lifelogId) None in
  (match remote_lifelog log r with
   | Fulfilled resp =>
       data <-- read type_error "response.data" (Axios.data resp) "data" ;;
       read type_error "response.data.lifelog" data "lifelog"
   | Rejected e => Rejected (ThrownError (rewrapped e))
   end, (log ++ [r])%list).
Proof.
  unfold getLifelog_untyped, bind. rewrite handleRequest_run.
  unfold axios_get. cbv zeta. destruct (remote_lifelog _ _); reflexivity.
Qed.






End UntypedFacts.

Section UntypedErrors.

Variable toLowerCase : string -> string.
Variable type_error : string -> Json -> string.
Variable remote_lifelogs : Remote Json.
Variable remote_lifelog : Remote Json.

(** Whatever is thrown while the reply is read is a [TypeError]. *)
Lemma read_throws expression value prop e :
  read type_error expression value prop = Rejected e ->
  is_TypeError type_error e.
Proof.
  destruct value; simpl; intros H; try discriminate;
    injection H as <-; now eexists _, _.
Qed.

Lemma call_toLowerCase_throws expression value e :
  call_toLowerCase toLowerCase type_error expression value = Rejected e ->
  is_TypeError type_error e.
Proof.
  destruct value; simpl; intros H; try discriminate;
    injection H as <-; now eexists _, _.
Qed.

Lemma item_matches_untyped_throws query item e :
  item_matches_untyped toLowerCase type_error query item = Rejected e ->
  is_TypeError type_error e.
Proof.
  unfold item_matches_untyped.
  destruct (read type_error "item.content" item "content") as [content|e0]
    eqn:Hread; cbn [and_then].
  - destruct (call_toLowerCase toLowerCase type_error _ content)
      as [lowered|e1] eqn:Hcall; cbn [and_then]; [discriminate |].
    intros H; injection H as <-. eapply call_toLowerCase_throws; eassumption.
  - intros H; injection H as <-. eapply read_throws; eassumption.
Qed.

Lemma some_untyped_throws (cb : Json -> Settled bool) items e :
  (forall item e0, cb item = Rejected e0 -> is_TypeError type_error e0) ->
  some_untyped cb items = Rejected e ->
  is_TypeError type_error e.
Proof.
  intros Hcb. induction items as [|item items IH]; cbn [some_untyped].
  - discriminate.
  - destruct (cb item) as [[|]|e0] eqn:Hitem; cbn [and_then].
    + discriminate.
    + exact IH.
    + intros H; injection H as <-. eapply Hcb; eassumption.
Qed.

Lemma filter_untyped_throws (cb : Json -> Settled bool) entries e :
  (forall entry e0, cb entry = Rejected e0 -> is_TypeError type_error e0) ->
  filter_untyped cb entries = Rejected e ->
  is_TypeError type_error e.
Proof.
  intros Hcb. induction entries as [|entry entries IH]; cbn [filter_untyped].
  - discriminate.
  - destruct (cb entry) as [keep|e0] eqn:Hentry; cbn [and_then].
    + destruct (filter_untyped cb entries) as [kept|e1]; cbn [and_then].
      * discriminate.
      * intros H; injection H as <-. now apply IH.
    + intros H; injection H as <-. eapply Hcb; eassumption.
Qed.

Lemma entry_matches_untyped_throws query entry e :
  entry_matches_untyped toLowerCase type_error query entry = Rejected e ->
  is_TypeError type_error e.
Proof.
  unfold entry_matches_untyped.
  destruct (read type_error "entry.title" entry "title") as [title|e0]
    eqn:Htitle; cbn [and_then];
    [| intros H; injection H as <-; eapply read_throws; eassumption].
  destruct (call_toLowerCase toLowerCase type_error _ title) as [lowered|e0]
    eqn:Hlower; cbn [and_then];
    [| intros H; injection H as <-;
       eapply call_toLowerCase_throws; eassumption].
  destruct (JsString.includes lowered query); [discriminate |].
  destruct (read type_error "entry.markdown" entry "markdown")
    as [markdown|e0] eqn:Hmd; cbn [and_then];
    [| intros H; injection H as <-; eapply read_throws; eassumption].
  assert (Hcontents :
    (contents <-- read type_error "entry.contents" entry "contents" ;;
     match contents with
     | JsonArray items =>
         some_untyped (item_matches_untyped toLowerCase type_error query) items
     | _ => Rejected (TypeError type_error "entry.contents.some" contents)
     end) = Rejected e -> is_TypeError type_error e).
  { destruct (read type_error "entry.contents" entry "contents")
      as [contents|e0] eqn:Hc; cbn [and_then];
      [| intros H; injection H as <-; eapply read_throws; eassumption].
    destruct contents;
      try (intros H; injection H as <-; now eexists _, _).
    apply some_untyped_throws. intros item e0.
    apply item_matches_untyped_throws. }
  destruct markdown as [| | b | n | s | items | fields];
    cbn [call_toLowerCase and_then]; try exact Hcontents;
    try (intros H; injection H as <-; now eexists _, _).
  destruct (JsString.includes (toLowerCase s) query); cbn [and_then];
    [discriminate | exact Hcontents].
Qed.

Lemma filter_reply_throws query allEntries e :
  filter_reply toLowerCase type_error query allEntries = Rejected e ->
  is_TypeError type_error e.
Proof.
  unfold filter_reply.
  destruct (read type_error "allEntries.data" allEntries "data")
    as [data|e0] eqn:Hdata; cbn [and_then];
    [| intros H; injection H as <-; eapply read_throws; eassumption].
  destruct (read type_error "allEntries.data.lifelogs" data "lifelogs")
    as [lifelogs|e0] eqn:Hl; cbn [and_then];
    [| intros H; injection H as <-; eapply read_throws; eassumption].
  assert (Hfilter : forall filtered,
    (filteredEntries <-- filtered ;;
     meta <-- read type_error "allEntries.meta" allEntries "meta" ;;
     Fulfilled (search_result filteredEntries meta)) = Rejected e ->
    (forall e0, filtered = Rejected e0 -> is_TypeError type_error e0) ->
    is_TypeError type_error e).
  { intros [kept|e0] H Hrej; cbn [and_then] in H.
    - destruct (read type_error "allEntries.meta" allEntries "meta")
        as [meta|e1] eqn:Hmeta; cbn [and_then] in H; [discriminate |].
      injection H as <-. eapply read_throws; eassumption.
    - injection H as <-. now apply Hrej. }
  intros H. apply (Hfilter _ H). intros e0.
  destruct lifelogs; try (intros H0; injection H0 as <-; now eexists _, _).
  apply filter_untyped_throws. intros entry e1.
  apply entry_matches_untyped_throws.
Qed.


(** X1.  Whatever the reply, every rejection of [getLifelogs] is a plain
    [Error] whose message begins with [Limitless API error].  A rejection
    of [getLifelog] or of [searchLifelogs] is either such a wrapped error,
    or, when the remote fulfilled the request, a [TypeError] raised
    outside [handleRequest] while a reply that lacks the declared shape
    was read. *)
Theorem client_rejections_untyped this list_params id search_params log e
    log' :
  (getLifelogs_untyped remote_lifelogs this list_params log
     = (Rejected e, log') ->
   exists rest, e = ThrownError ("Limitless API error" ++ rest))
  /\
  (getLifelog_untyped type_error remote_lifelog this id log
     = (Rejected e, log') ->
   (exists rest, e = ThrownError ("Limitless API error" ++ rest)) \/
   (is_TypeError type_error e /\
    exists resp,
      remote_lifelog log
        (Axios.mkRequest (api this) ("/v1/lifelogs/" ++ id) None)
      = Fulfilled resp))
  /\
  (searchLifelogs_untyped toLowerCase type_error remote_lifelogs this
     search_params log = (Rejected e, log') ->
   (exists rest, e = ThrownError ("Limitless API error" ++ rest)) \/
   (is_TypeError type_error e /\
    exists resp,
      remote_lifelogs log
        (Axios.mkRequest (api this) "/v1/lifelogs"
           (Some (search_list_params search_params)))
      = Fulfilled resp)).
Proof.
  split; [| split].
  - rewrite getLifelogs_untyped_run. cbv zeta.
    destruct (remote_lifelogs _ _) as [resp|e0]; [discriminate |].
    intros H; injection H as <- _.
    destruct (rewrapped_prefix e0) as [rest ->]. now exists rest.
  - rewrite getLifelog_untyped_run. cbv zeta.
    destruct (remote_lifelog _ _) as [resp|e0] eqn:Hremote.
    + intros H. right. injection H as Hrej _. split; [| now exists resp].
      destruct (read type_error "response.data" (Axios.data resp) "data")
        as [data|e1] eqn:Hdata; cbn [and_then] in Hrej.
      * eapply read_throws; eassumption.
      * injection Hrej as <-. eapply read_throws; eassumption.
    + intros H. left. injection H as <- _.
      destruct (rewrapped_prefix e0) as [rest ->]. now exists rest.
  - rewrite searchLifelogs_untyped_run. cbv zeta.
    destruct (remote_lifelogs _ _) as [resp|e0] eqn:Hremote.
    + intros H. right. injection H as Hrej _. split; [| now exists resp].
      eapply filter_reply_throws; eassumption.
    + intros H. left. injection H as <- _.
      destruct (rewrapped_prefix e0) as [rest ->]. now exists rest.
Qed.

End UntypedErrors.



(** C5 at a query in capital Greek letters.  The page has one entry,
    titled ασα.  The query ασ finds it; the query ΑΣ, the same letters in
    capitals, lower-cases to ας and finds nothing. *)
Lemma searchLifelogs_final_sigma :
  Greek.toLowerCase "ΑΣ" = "ας" /\
  Greek.toLowerCase "ασ" = "ασ" /\
  Greek.toLowerCase "ασα" = "ασα" /\
  fst (searchLifelogs Greek.toLowerCase Fixture.remote_sigma Sample.client
         (Sample.search "ασ") [])
  = Fulfilled (ListLifelogsResponse.mk [Sample.entry "ασα" [] None] None) /\
  fst (searchLifelogs Greek.toLowerCase Fixture.remote_sigma Sample.client
         (Sample.search "ΑΣ") [])
  = Fulfilled (ListLifelogsResponse.mk [] None).
Proof. repeat split. Qed.
